(** * Home library backend: the book ingestion handler of [main.py]

    A shallow embedding of the module-level start-up code and of the
    request handler [upload_book].  The handler is a straight line of calls
    to collaborators that live outside the repository (temporary files, the
    inference client, the SQL driver, the spreadsheet client); each of them
    either returns or raises.  The embedding threads an explicit world
    (file system, [books] table, worksheets, standard output and the trace
    of calls made) through a small state-and-exception monad, and takes the
    outcome of every outside call from a record of collaborators. *)

From Stdlib Require Import ZArith Lia String Ascii List.
From stdpp Require Import base option strings gmap list.
Import ListNotations.

Local Open Scope string_scope.
Set Warnings "-register-all".

(** ** Python values and exceptions *)

(** The values [json.loads] can produce.  A [dict] keeps its keys in
    insertion order, so it is an association list without repeated keys. *)
Inductive value : Type :=
| VNone
| VBool (b : bool)
| VInt (z : Z)
| VFloat (lexeme : string)
| VStr (s : string)
| VList (l : list value)
| VDict (d : list (string * value)).

(** [d.get(k)] on an insertion-ordered dict. *)
Fixpoint dict_get (d : list (string * value)) (k : string) : option value :=
  match d with
  | [] => None
  | (k', v) :: d' => if String.eqb k' k then Some v else dict_get d' k
  end.

(** [d[k] = v]: an existing key keeps its position, a new key goes last. *)
Fixpoint dict_set (d : list (string * value)) (k : string) (v : value)
  : list (string * value) :=
  match d with
  | [] => [(k, v)]
  | (k', v') :: d' =>
      if String.eqb k' k then (k', v) :: d' else (k', v') :: dict_set d' k v
  end.

(** An exception object that is an instance of [Exception]: a Python
    exception with its class name and the text [str(e)] gives, or FastAPI's
    [HTTPException]. *)
Inductive Exn : Type :=
| PyExc (cls : string) (msg : string)
| HTTPException (status_code : Z) (detail : string).

(** Decimal digits of a non-negative integer, most significant first. *)
Definition digit_char (d : Z) : ascii :=
  ascii_of_nat (Z.to_nat (48 + d mod 10)).

Fixpoint digits_of (fuel : nat) (n : Z) (acc : string) : string :=
  match fuel with
  | O => acc
  | S fuel' =>
      let acc' := String (digit_char n) acc in
      if (n <? 10)%Z then acc' else digits_of fuel' (n / 10) acc'
  end.

(** [str(z)] for an [int]. *)
Definition str_int (z : Z) : string :=
  let n := Z.abs z in
  let ds := digits_of (S (Z.to_nat (Z.log2 n))) n "" in
  if (z <? 0)%Z then "-" ++ ds else ds.

(** [str(e)]. *)
Definition str_exn (e : Exn) : string :=
  match e with
  | PyExc _ msg => msg
  | HTTPException sc d => str_int sc ++ ": " ++ d
  end.

(** Exceptions that are not instances of [Exception]: an
    [except Exception] clause lets them pass. *)
Inductive BaseExn : Type :=
| CancelledError       (* asyncio.CancelledError, delivered at an await *)
| KeyboardInterrupt
| SystemExit
| GeneratorExit.

(** The outcome of a call: a value, a raised instance of [Exception], or
    an exception of [B] that is not one. *)
Inductive Outcome (B A : Type) : Type :=
| Ok (a : A)
| Raise (e : Exn)
| Escapes (b : B).
Arguments Ok {B A} a.
Arguments Raise {B A} e.
Arguments Escapes {B A} b.

(** The outcome of a library function that computes, and of the calls of
    start-up: a value or an instance of [Exception]. *)
Definition Result (A : Type) : Type := Outcome Empty_set A.

(** The outcome of a call made while a request is handled. *)
Definition Call (A : Type) : Type := Outcome BaseExn A.

Definition embed {A} (r : Result A) : Call A :=
  match r with
  | Ok a => Ok a
  | Raise e => Raise e
  | Escapes b => match b with end
  end.

(** [obj[k]] with a string key [k].  Only a dict can be indexed by a
    string; a missing key raises [KeyError], whose text is the key's repr. *)
Definition type_name (v : value) : string :=
  match v with
  | VNone => "NoneType"
  | VBool _ => "bool"
  | VInt _ => "int"
  | VFloat _ => "float"
  | VStr _ => "str"
  | VList _ => "list"
  | VDict _ => "dict"
  end.

Definition subscript (v : value) (k : string) : Result value :=
  match v with
  | VDict d =>
      match dict_get d k with
      | Some x => Ok x
      | None => Raise (PyExc "KeyError" ("'" ++ k ++ "'"))
      end
  | VList _ =>
      Raise (PyExc "TypeError" "list indices must be integers or slices, not str")
  | VStr _ =>
      Raise (PyExc "TypeError" "string indices must be integers, not 'str'")
  | _ =>
      Raise (PyExc "TypeError" ("'" ++ type_name v ++ "' object is not subscriptable"))
  end.

(** ** The world outside the process *)

(** A row of the table [books(id, title, genre)]: the generated identifier
    and the two values bound to the INSERT's placeholders. *)
Record Book : Type := mkBook {
  book_id : Z;
  book_title : value;
  book_genre : value
}.

(** Calls that leave the process. *)
Inductive Event : Type :=
| EvNamedTemporaryFile (suffix : string)
| EvFileRead
| EvTmpWrite (path : string)
| EvTmpClose (path : string)
| EvGenaiClient (api_key : option string)
| EvFilesUpload (path : string)
| EvGenerateContent (model : string)
| EvConnect (host database user password : option string)
| EvCursor
| EvExecute (query : string) (title genre : value)
| EvCommit
| EvCursorClose
| EvConnectionClose
| EvWorksheet (spreadsheet title : string)
| EvAppendRow (spreadsheet title : string) (row : list value)
| EvRemove (path : string).

Record World : Type := mkWorld {
  fs : gmap string string;                          (* path -> file content *)
  books : list Book;                                (* committed rows *)
  sheets : gmap (string * string) (list (list value)); (* (spreadsheet, worksheet) -> rows *)
  stdout : list string;
  trace : list (Event * bool)   (* calls in the order made; [true]: it returned *)
}.

(** The frame of one invocation of the handler: the world, the rows of the
    connection's open transaction, and the local [temp_path], which is
    unbound until line 67 has run. *)
Record Frame : Type := mkFrame {
  world : World;
  pending : list Book;
  temp_path : option string
}.

Definition with_world (f : World -> World) (fr : Frame) : Frame :=
  {| world := f (world fr); pending := pending fr; temp_path := temp_path fr |}.

Definition log (ev : Event) (returned : bool) (w : World) : World :=
  {| fs := fs w; books := books w; sheets := sheets w; stdout := stdout w;
     trace := (trace w ++ [(ev, returned)])%list |}.

Definition set_fs (f : gmap string string) (w : World) : World :=
  {| fs := f; books := books w; sheets := sheets w; stdout := stdout w;
     trace := trace w |}.

Definition set_books (b : list Book) (w : World) : World :=
  {| fs := fs w; books := b; sheets := sheets w; stdout := stdout w;
     trace := trace w |}.

Definition set_sheets (s : gmap (string * string) (list (list value))) (w : World)
  : World :=
  {| fs := fs w; books := books w; sheets := s; stdout := stdout w;
     trace := trace w |}.

Definition put_stdout (line : string) (w : World) : World :=
  {| fs := fs w; books := books w; sheets := sheets w;
     stdout := (stdout w ++ [line])%list; trace := trace w |}.

(** ** A state-and-exception monad over frames *)

Definition M (A : Type) : Type := Frame -> Call A * Frame.

Definition ret {A} (a : A) : M A := fun fr => (Ok a, fr).

Definition raise {A} (e : Exn) : M A := fun fr => (Raise e, fr).

Definition bind {A B} (c : M A) (k : A -> M B) : M B :=
  fun fr =>
    match c fr with
    | (Ok a, fr') => k a fr'
    | (Raise e, fr') => (Raise e, fr')
    | (Escapes b, fr') => (Escapes b, fr')
    end.

Notation "x <- c ;; k" := (bind c (fun x => k))
  (at level 100, c at next level, right associativity).
Notation "c ;;; k" := (bind c (fun _ => k))
  (at level 100, right associativity).

(** Lift the outcome of an outside call. *)
Definition lift {A} (r : Call A) : M A := fun fr => (r, fr).

Definition modify (f : World -> World) : M unit :=
  fun fr => (Ok tt, with_world f fr).

Definition is_ok {B A} (r : Outcome B A) : bool :=
  match r with
  | Ok _ => true
  | Raise _ => false
  | Escapes _ => false
  end.

(** An outside call: it is recorded with its outcome, then it returns or
    raises. *)
Definition call {A} (ev : Event) (r : Call A) : M A :=
  modify (log ev (is_ok r)) ;;; lift r.

(** [try: body / except Exception as e: handler e / finally: cleanup].
    The handler takes the instances of [Exception] and no other exception.
    The [finally] block runs on every path; an exception it raises
    replaces the pending result. *)
Definition try_except_finally {A} (body : M A) (handler : Exn -> M A)
    (cleanup : M unit) : M A :=
  fun fr =>
    let '(r1, fr1) := body fr in
    let '(r2, fr2) :=
      match r1 with
      | Ok a => (Ok a, fr1)
      | Raise e => handler e fr1
      | Escapes b => (Escapes b, fr1)
      end in
    match cleanup fr2 with
    | (Ok _, fr3) => (r2, fr3)
    | (Raise e', fr3) => (Raise e', fr3)
    | (Escapes b', fr3) => (Escapes b', fr3)
    end.

(** [with ctx as x: body]: [exit] runs whether or not the body raised, and
    an exception of [exit] replaces the body's. *)
Definition with_block {A B} (enter : M A) (body : A -> M B) (exit : A -> M unit)
  : M B :=
  fun fr =>
    match enter fr with
    | (Raise e, fr1) => (Raise e, fr1)
    | (Escapes b, fr1) => (Escapes b, fr1)
    | (Ok x, fr1) =>
        let '(r, fr2) := body x fr1 in
        match exit x fr2 with
        | (Ok _, fr3) => (r, fr3)
        | (Raise e', fr3) => (Raise e', fr3)
        | (Escapes b', fr3) => (Escapes b', fr3)
        end
    end.

(** ** Library functions the module calls *)

(** [s.rfind(c)]: index of the last occurrence of [c], or -1. *)
Fixpoint rfind_from (c : ascii) (s : string) (i : Z) (found : Z) : Z :=
  match s with
  | EmptyString => found
  | String a s' =>
      rfind_from c s' (i + 1) (if Ascii.eqb a c then i else found)
  end.

Definition rfind (c : ascii) (s : string) : Z := rfind_from c s 0 (-1).

(** Is there an index [i] with [lo <= i < lo + n] and [p[i] != c]? *)
Fixpoint differs_in (c : ascii) (p : string) (lo : Z) (n : nat) : bool :=
  match n with
  | O => false
  | S n' =>
      match String.get (Z.to_nat lo) p with
      | Some a => if Ascii.eqb a c then differs_in c p (lo + 1) n' else true
      | None => true
      end
  end.

(** [os.path.splitext] (posixpath): the extension starts at the last dot
    of the last path component, leading dots of the component apart. *)
Definition splitext (p : string) : string * string :=
  let sepIndex := rfind "/"%char p in
  let dotIndex := rfind "."%char p in
  if (dotIndex >? sepIndex)%Z
     && differs_in "."%char p (sepIndex + 1) (Z.to_nat (dotIndex - (sepIndex + 1)))
  then (String.substring 0 (Z.to_nat dotIndex) p,
        String.substring (Z.to_nat dotIndex) (String.length p - Z.to_nat dotIndex) p)
  else (p, "").

(** A [datetime] and [strftime("%m/%d/%Y %H:%M:%S")]. *)
Record DateTime : Type := mkDateTime {
  year : Z; month : Z; day : Z;
  hour : Z; minute : Z; second : Z
}.

Definition pad2 (n : Z) : string :=
  String (digit_char (n / 10)) (String (digit_char n) "").

Definition pad4 (n : Z) : string :=
  String (digit_char (n / 1000)) (String (digit_char (n / 100))
    (String (digit_char (n / 10)) (String (digit_char n) ""))).

Definition strftime_mdY_HMS (t : DateTime) : string :=
  pad2 (month t) ++ "/" ++ pad2 (day t) ++ "/" ++ pad4 (year t) ++ " "
  ++ pad2 (hour t) ++ ":" ++ pad2 (minute t) ++ ":" ++ pad2 (second t).

(** What [datetime.now()] can return: a four-digit year and fields within
    their calendar ranges. *)
Definition valid_datetime (t : DateTime) : Prop :=
  (1000 <= year t <= 9999 /\ 1 <= month t <= 12 /\ 1 <= day t <= 31 /\
   0 <= hour t < 24 /\ 0 <= minute t < 60 /\ 0 <= second t < 60)%Z.

(** The text has the shape [MM/DD/YYYY HH:MM:SS]. *)
Definition is_digit (a : ascii) : bool :=
  (48 <=? nat_of_ascii a)%nat && (nat_of_ascii a <=? 57)%nat.

Fixpoint matches_shape (shape : string) (s : string) : bool :=
  match shape, s with
  | EmptyString, EmptyString => true
  | String c shape', String a s' =>
      (if is_digit c then is_digit a else Ascii.eqb a c) && matches_shape shape' s'
  | _, _ => false
  end.

Definition is_mdY_HMS (s : string) : bool := matches_shape "00/00/0000 00:00:00" s.

(** The value of a decimal digit, and of a run of digits. *)
Definition digit_value (a : ascii) : option Z :=
  if is_digit a then Some (Z.of_nat (nat_of_ascii a) - 48)%Z else None.

Fixpoint decimal (digits : list ascii) (acc : Z) : option Z :=
  match digits with
  | [] => Some acc
  | a :: r =>
      match digit_value a with
      | Some d => decimal r (acc * 10 + d)%Z
      | None => None
      end
  end.

(** Reading a time stamp back, as [datetime.strptime(s, "%m/%d/%Y %H:%M:%S")]
    does on a text of nineteen characters: month, day and year come first,
    separated by slashes, then hour, minute and second, separated by
    colons. *)
Definition strptime_mdY_HMS (s : string) : option DateTime :=
  match list_ascii_of_string s with
  | [m1; m2; s1; d1; d2; s2; y1; y2; y3; y4; sp; h1; h2; c1; n1; n2; c2; e1; e2] =>
      if Ascii.eqb s1 "/" && Ascii.eqb s2 "/" && Ascii.eqb sp " "
         && Ascii.eqb c1 ":" && Ascii.eqb c2 ":"
      then
        match decimal [m1; m2] 0, decimal [d1; d2] 0, decimal [y1; y2; y3; y4] 0,
              decimal [h1; h2] 0, decimal [n1; n2] 0, decimal [e1; e2] 0 with
        | Some mo, Some d, Some y, Some h, Some mi, Some se =>
            Some {| year := y; month := mo; day := d;
                    hour := h; minute := mi; second := se |}
        | _, _, _, _, _, _ => None
        end
      else None
  | _ => None
  end.

(** ** A model of [json.loads]

    The handler only looks at whether [json.loads] returns or raises, so
    its theorems are stated for any such function.  The decoder below
    follows CPython's scanner ([json.decoder], [_json.c], before 3.13) and
    is the instance used on concrete inputs.  A [float] is kept as its
    lexeme and text is a string of UTF-8 bytes; the scanner counts bytes,
    and an error text gives the position in code points, as Python does. *)

Inductive Scan (A : Type) : Type :=
| Scanned (a : A) (rest : string) (idx : nat)  (* value, text after it, its index *)
| Stop (idx : nat)                             (* StopIteration(idx) *)
| Fail (msg : string) (idx : nat).             (* JSONDecodeError(msg, doc, idx) *)
Arguments Scanned {A} a rest idx.
Arguments Stop {A} idx.
Arguments Fail {A} msg idx.

(** The double quote. *)
Definition dquote : ascii := "034"%char.

Definition is_ws (a : ascii) : bool :=
  Ascii.eqb a " " || Ascii.eqb a "009" || Ascii.eqb a "010" || Ascii.eqb a "013".

Fixpoint skip_ws (s : string) (idx : nat) : string * nat :=
  match s with
  | String a r => if is_ws a then skip_ws r (S idx) else (s, idx)
  | EmptyString => (s, idx)
  end.

Definition hex_value (a : ascii) : option N :=
  let n := N_of_ascii a in
  if (48 <=? n)%N && (n <=? 57)%N then Some (n - 48)%N
  else if (97 <=? n)%N && (n <=? 102)%N then Some (n - 87)%N
  else if (65 <=? n)%N && (n <=? 70)%N then Some (n - 55)%N
  else None.

(** The four hex digits of a [\uXXXX] escape. *)
Definition hex4 (s : string) : option (N * string) :=
  match s with
  | String a (String b (String c (String d r))) =>
      match hex_value a, hex_value b, hex_value c, hex_value d with
      | Some x, Some y, Some z, Some w =>
          Some ((((x * 16 + y) * 16 + z) * 16 + w)%N, r)
      | _, _, _, _ => None
      end
  | _ => None
  end.

(** [chr(n)], encoded in UTF-8. *)
Definition utf8 (n : N) : string :=
  let byte (x : N) := String (ascii_of_N x) "" in
  if (n <? 128)%N then byte n
  else if (n <? 2048)%N then
    byte (192 + n / 64)%N ++ byte (128 + n mod 64)%N
  else if (n <? 65536)%N then
    byte (224 + n / 4096)%N ++ byte (128 + (n / 64) mod 64)%N
    ++ byte (128 + n mod 64)%N
  else
    byte (240 + n / 262144)%N ++ byte (128 + (n / 4096) mod 64)%N
    ++ byte (128 + (n / 64) mod 64)%N ++ byte (128 + n mod 64)%N.

Definition unescape (a : ascii) : option ascii :=
  if Ascii.eqb a dquote then Some dquote
  else if Ascii.eqb a "\" then Some "\"%char
  else if Ascii.eqb a "/" then Some "/"%char
  else if Ascii.eqb a "b" then Some "008"%char
  else if Ascii.eqb a "f" then Some "012"%char
  else if Ascii.eqb a "n" then Some "010"%char
  else if Ascii.eqb a "r" then Some "013"%char
  else if Ascii.eqb a "t" then Some "009"%char
  else None.

(** [scanstring]: [s] is the text after the opening quote, at index [idx];
    [begin] is the index of the opening quote. *)
Fixpoint scanstring (fuel : nat) (s : string) (idx begin : nat) (acc : string)
  : Scan string :=
  match fuel with
  | O => Fail "Unterminated string starting at" begin
  | S fuel' =>
      match s with
      | EmptyString => Fail "Unterminated string starting at" begin
      | String a r =>
          if Ascii.eqb a dquote then Scanned acc r (S idx)
          else if Ascii.eqb a "\" then
            match r with
            | EmptyString => Fail "Unterminated string starting at" begin
            | String e r' =>
                if Ascii.eqb e "u" then
                  match hex4 r' with
                  | None => Fail "Invalid \uXXXX escape" (S idx)
                  | Some (uni, r2) =>
                      let single := scanstring fuel' r2 (idx + 6) begin (acc ++ utf8 uni) in
                      if (55296 <=? uni)%N && (uni <=? 56319)%N then
                        match r2 with
                        | String b1 (String b2 r3) =>
                            if Ascii.eqb b1 "\" && Ascii.eqb b2 "u" then
                              match hex4 r3 with
                              | None => Fail "Invalid \uXXXX escape" (idx + 7)
                              | Some (uni2, r4) =>
                                  if (56320 <=? uni2)%N && (uni2 <=? 57343)%N then
                                    scanstring fuel' r4 (idx + 12) begin
                                      (acc ++ utf8 (65536 + ((uni - 55296) * 1024
                                                             + (uni2 - 56320)))%N)
                                  else single
                              end
                            else single
                        | _ => single
                        end
                      else single
                  end
                else
                  match unescape e with
                  | Some c => scanstring fuel' r' (idx + 2) begin (acc ++ String c "")
                  | None => Fail "Invalid \escape" idx
                  end
            end
          else if (N_of_ascii a <=? 31)%N then Fail "Invalid control character at" idx
          else scanstring fuel' r (S idx) begin (acc ++ String a "")
      end
  end.

Fixpoint span_digits (s : string) : string * string :=
  match s with
  | String a r =>
      if is_digit a then let '(ds, r') := span_digits r in (String a ds, r')
      else ("", s)
  | EmptyString => ("", "")
  end.

Fixpoint int_of_digits (ds : string) (acc : Z) : Z :=
  match ds with
  | String a r => int_of_digits r (acc * 10 + (Z.of_N (N_of_ascii a) - 48))%Z
  | EmptyString => acc
  end.

(** [_match_number]: an integer, or a float when a fraction or an exponent
    follows.  [None] when the text does not start with a number. *)
Definition match_number (s : string) (idx : nat) : option (value * string * nat) :=
  let '(sign, s1) :=
    match s with
    | String a r => if Ascii.eqb a "-" then ("-", r) else ("", s)
    | EmptyString => ("", s)
    end in
  let int_part :=
    match s1 with
    | String a r =>
        if Ascii.eqb a "0" then Some ("0", r)
        else if is_digit a then Some (span_digits s1)
        else None
    | EmptyString => None
    end in
  match int_part with
  | None => None
  | Some (ds, r1) =>
      let '(frac, r2) :=
        match r1 with
        | String a r =>
            if Ascii.eqb a "." then
              let '(fd, r') := span_digits r in
              if String.eqb fd "" then ("", r1) else ("." ++ fd, r')
            else ("", r1)
        | EmptyString => ("", r1)
        end in
      let '(expo, r3) :=
        match r2 with
        | String a r =>
            if Ascii.eqb a "e" || Ascii.eqb a "E" then
              let '(sg, r') :=
                match r with
                | String b rr =>
                    if Ascii.eqb b "-" || Ascii.eqb b "+" then (String b "", rr)
                    else ("", r)
                | EmptyString => ("", r)
                end in
              let '(ed, r'') := span_digits r' in
              if String.eqb ed "" then ("", r2) else (String a "" ++ sg ++ ed, r'')
            else ("", r2)
        | EmptyString => ("", r2)
        end in
      let lexeme := sign ++ ds ++ frac ++ expo in
      let v :=
        if String.eqb frac "" && String.eqb expo "" then
          VInt (if String.eqb sign "-" then - int_of_digits ds 0 else int_of_digits ds 0)
        else VFloat lexeme in
      Some (v, r3, idx + String.length lexeme)
  end.

(** Does [s] start with [p]?  If so, the rest of [s]. *)
Fixpoint strip_prefix (p s : string) : option string :=
  match p, s with
  | EmptyString, _ => Some s
  | String a p', String b s' => if Ascii.eqb a b then strip_prefix p' s' else None
  | _, _ => None
  end.

Definition scan_literal (s : string) (idx : nat) : Scan value :=
  let lit (p : string) (v : value) (otherwise : Scan value) :=
    match strip_prefix p s with
    | Some r => Scanned v r (idx + String.length p)
    | None => otherwise
    end in
  lit "null" VNone (lit "true" (VBool true) (lit "false" (VBool false)
  (lit "NaN" (VFloat "NaN") (lit "Infinity" (VFloat "Infinity")
  (lit "-Infinity" (VFloat "-Infinity")
    match match_number s idx with
    | Some (v, r, i) => Scanned v r i
    | None => Stop idx
    end))))).

(** [scan_once], [_parse_object] and [_parse_array]; [s] is the text at
    index [idx].  For the object and the array, [s] is the text after the
    opening bracket and leading white space. *)
Fixpoint scan_once (fuel : nat) (s : string) (idx : nat) : Scan value :=
  match fuel with
  | O => Stop idx
  | S fuel' =>
      match s with
      | EmptyString => Stop idx
      | String a r =>
          if Ascii.eqb a dquote then
            match scanstring (String.length r) r (S idx) idx "" with
            | Scanned str r' i => Scanned (VStr str) r' i
            | Stop i => Stop i
            | Fail m i => Fail m i
            end
          else if Ascii.eqb a "{" then
            let '(r0, i0) := skip_ws r (S idx) in
            match r0 with
            | String "}" r1 => Scanned (VDict []) r1 (S i0)
            | _ => parse_object fuel' r0 i0 []
            end
          else if Ascii.eqb a "[" then
            let '(r0, i0) := skip_ws r (S idx) in
            match r0 with
            | String "]" r1 => Scanned (VList []) r1 (S i0)
            | _ => parse_array fuel' r0 i0 []
            end
          else scan_literal s idx
      end
  end
with parse_object (fuel : nat) (s : string) (idx : nat) (pairs : list (string * value))
  : Scan value :=
  match fuel with
  | O => Stop idx
  | S fuel' =>
      match (if String.prefix (String dquote "") s then s else "") with
      | String _ r =>
          match scanstring (String.length r) r (S idx) idx "" with
          | Stop i => Stop i
          | Fail m i => Fail m i
          | Scanned key r1 i1 =>
              let '(r2, i2) := skip_ws r1 i1 in
              match r2 with
              | String ":" r3 =>
                  let '(r4, i4) := skip_ws r3 (S i2) in
                  match scan_once fuel' r4 i4 with
                  | Stop i => Stop i
                  | Fail m i => Fail m i
                  | Scanned v r5 i5 =>
                      let pairs' := dict_set pairs key v in
                      let '(r6, i6) := skip_ws r5 i5 in
                      match r6 with
                      | String "}" r7 => Scanned (VDict pairs') r7 (S i6)
                      | String "," r7 =>
                          let '(r8, i8) := skip_ws r7 (S i6) in
                          parse_object fuel' r8 i8 pairs'
                      | _ => Fail "Expecting ',' delimiter" i6
                      end
                  end
              | _ => Fail "Expecting ':' delimiter" i2
              end
          end
      | _ => Fail "Expecting property name enclosed in double quotes" idx
      end
  end
with parse_array (fuel : nat) (s : string) (idx : nat) (items : list value)
  : Scan value :=
  match fuel with
  | O => Stop idx
  | S fuel' =>
      match scan_once fuel' s idx with
      | Stop i => Stop i
      | Fail m i => Fail m i
      | Scanned v r1 i1 =>
          let items' := (items ++ [v])%list in
          let '(r2, i2) := skip_ws r1 i1 in
          match r2 with
          | String "]" r3 => Scanned (VList items') r3 (S i2)
          | String "," r3 =>
              let '(r4, i4) := skip_ws r3 (S i2) in
              parse_array fuel' r4 i4 items'
          | _ => Fail "Expecting ',' delimiter" i2
          end
      end
  end.

(** The text of a [JSONDecodeError]: message, line, column and index. *)
Fixpoint count_newlines (doc : string) (n : nat) : nat :=
  match n, doc with
  | S n', String a r =>
      (if Ascii.eqb a "010" then 1 else 0) + count_newlines r n'
  | _, _ => 0
  end.

(** The code points of a UTF-8 text: its bytes other than continuation
    bytes. *)
Fixpoint code_points (s : string) : nat :=
  match s with
  | EmptyString => 0
  | String a r =>
      (if (128 <=? N_of_ascii a)%N && (N_of_ascii a <=? 191)%N then 0 else 1)
      + code_points r
  end.

(** [pos] is the byte index the scanner stopped at. *)
Definition JSONDecodeError (msg doc : string) (pos : nat) : Exn :=
  let head := String.substring 0 pos doc in
  let lineno := S (count_newlines doc pos) in
  let line_start := Z.to_nat (rfind "010"%char head + 1) in
  let colno := S (code_points (String.substring line_start (pos - line_start) head)) in
  PyExc "JSONDecodeError"
    (msg ++ ": line " ++ str_int (Z.of_nat lineno)
         ++ " column " ++ str_int (Z.of_nat colno)
         ++ " (char " ++ str_int (Z.of_nat (code_points head)) ++ ")").

(** [json.JSONDecoder().decode(doc)]. *)
Definition json_decode (doc : string) : Result value :=
  match strip_prefix (utf8 65279) doc with
  | Some _ => Raise (JSONDecodeError "Unexpected UTF-8 BOM (decode using utf-8-sig)" doc 0)
  | None =>
      let '(s0, i0) := skip_ws doc 0 in
      match scan_once (2 * String.length doc + 2) s0 i0 with
      | Stop i => Raise (JSONDecodeError "Expecting value" doc i)
      | Fail m i => Raise (JSONDecodeError m doc i)
      | Scanned v r i =>
          let '(r', i') := skip_ws r i in
          match r' with
          | EmptyString => Ok v
          | _ => Raise (JSONDecodeError "Extra data" doc i')
          end
      end
  end.

(** [json.loads(response.text)], where [response.text] may be [None]. *)
Definition py_json_loads (text : option string) : Result value :=
  match text with
  | Some doc => json_decode doc
  | None => Raise (PyExc "TypeError"
                     "the JSON object must be str, bytes or bytearray, not NoneType")
  end.

(** ** Module level: configuration and start-up (lines 19-54) *)

Definition SHEET_NAME : string := "Family_Library_Books".

Definition scope : list string :=
  [ "https://spreadsheets.google.com/feeds";
    "https://www.googleapis.com/auth/drive";
    "https://www.googleapis.com/auth/spreadsheets" ].

(** [load_dotenv()]: variables of the [.env] file are added to the process
    environment; a variable that is already set keeps its value. *)
Definition load_dotenv (dotenv environ : gmap string string) : gmap string string :=
  environ ∪ dotenv.

Definition getenv (environ : gmap string string) (name : string) : option string :=
  environ !! name.

(** Truth value of an [Optional[str]]: [None] and the empty string are false. *)
Definition truthy (o : option string) : bool :=
  match o with
  | Some s => negb (String.eqb s "")
  | None => false
  end.

(** Collaborators of the start-up code. *)
Record Startup : Type := mkStartup {
  from_json_keyfile_name : string -> list string -> Result unit;
  authorize : Result unit;
  client_open : string -> Result unit;
  StaticFiles : string -> Result unit
}.

(** The module's globals once it has been imported without raising. *)
Record App : Type := mkApp {
  DB_HOST : option string;
  DB_NAME : option string;
  DB_USER : option string;
  DB_PASS : option string;
  sheet : string;                 (* title of the spreadsheet [client.open] gave *)
  os_environ : gmap string string
}.

Definition rbind {B A A'} (r : Outcome B A) (k : A -> Outcome B A') : Outcome B A' :=
  match r with
  | Ok a => k a
  | Raise e => Raise e
  | Escapes b => Escapes b
  end.

(** Importing the module: [Ok app] when the endpoint becomes reachable,
    [Raise e] when the process stops with [e]. *)
Definition module_init (st : Startup) (dotenv environ0 : gmap string string)
  : Result App :=
  let environ := load_dotenv dotenv environ0 in
  let db_host := getenv environ "DB_HOST" in
  let db_name := getenv environ "DB_NAME" in
  let db_user := getenv environ "DB_USER" in
  let db_pass := getenv environ "DB_PASS" in
  rbind (from_json_keyfile_name st "credentials.json" scope) (fun _ =>
  rbind (authorize st) (fun _ =>
  rbind (client_open st SHEET_NAME) (fun _ =>
  if negb (forallb truthy [db_host; db_name; db_user; db_pass]) then
    Raise (PyExc "Exception"
             "Missing one or more required database environment variables")
  else
    rbind (StaticFiles st "static") (fun _ =>
    Ok {| DB_HOST := db_host; DB_NAME := db_name; DB_USER := db_user;
          DB_PASS := db_pass; sheet := SHEET_NAME; os_environ := environ |})))).

(** ** The request handler (lines 61-124) *)

(** FastAPI's [UploadFile]: the client's file name, when it sent one, and
    what [await file.read()] does. *)
Record UploadFile : Type := mkUploadFile {
  filename : option string;
  read : Call string
}.

(** Collaborators of one request; each call returns or raises. *)
Record Services : Type := mkServices {
  NamedTemporaryFile : string -> Call string;         (* suffix -> tmp.name *)
  tmp_write : string -> string -> Call unit;          (* tmp.name, data *)
  tmp_partial : string -> string -> string;
                  (* tmp.name, data -> what a write that fails leaves in the file *)
  tmp_close : string -> Call unit;
  genai_Client : option string -> Call unit;          (* api_key *)
  files_upload : string -> Call string;               (* path -> uploaded file *)
  generate_content : string -> string -> string -> Call (option string);
                                    (* model, file, prompt -> response.text *)
  psycopg2_connect :
    option string -> option string -> option string -> option string -> Call unit;
  conn_cursor : Call unit;
  cur_execute : string -> value -> value -> Call Z;   (* the RETURNING id *)
  conn_commit : Call unit;
  cur_close : Call unit;
  conn_close : Call unit;
  sheet_worksheet : string -> string -> Call unit;    (* spreadsheet, title *)
  datetime_now : DateTime;
  append_row : string -> string -> list value -> Call unit
}.

Definition prompt : string :=
  "Based on the given image identify the details of the book " ++
  "and provide the response in JSON format with fields title and genre as given in the output schema.".

Definition query : string :=
  "INSERT INTO books (title, genre) VALUES (%s, %s) RETURNING id;".

(** [str(x)] as [print] shows an [Optional[str]]. *)
Definition str_opt (o : option string) : string :=
  match o with
  | Some s => s
  | None => "None"
  end.

(** The dict of lines 113-117. *)
Definition success_payload (book_data : value) : value :=
  VDict [ ("status", VStr "success");
          ("book", book_data);
          ("message", VStr "Book inserted successfully!") ].

Section Handler.

(** [json.loads], applied to [response.text]. *)
Variable json_loads : option string -> Result value.
Variable app : App.
Variable svc : Services.

Definition set_temp_path (path : string) : M unit :=
  fun fr => (Ok tt, {| world := world fr; pending := pending fr;
                       temp_path := Some path |}).

(** Reading the local [temp_path]; an unbound local raises. *)
Definition read_temp_path : M string :=
  fun fr =>
    match temp_path fr with
    | Some path => (Ok path, fr)
    | None =>
        (Raise (PyExc "UnboundLocalError"
           "cannot access local variable 'temp_path' where it is not associated with a value"),
         fr)
    end.

(** Line 65: [tempfile.NamedTemporaryFile(delete=False, suffix=...)]
    creates an empty file and keeps it when it is closed. *)
Definition open_temporary_file (suffix : string) : M string :=
  name <- call (EvNamedTemporaryFile suffix) (NamedTemporaryFile svc suffix) ;;
  modify (fun w => set_fs (<[name := ""]> (fs w)) w) ;;;
  ret name.

(** [tmp.write(data)]: when it returns, the file holds [data]; when it
    does not, the file holds what the failing write left in it. *)
Definition write_temporary_file (name data : string) : M unit :=
  fun fr =>
    let r := tmp_write svc name data in
    let content :=
      match r with
      | Ok _ => data
      | _ => tmp_partial svc name data
      end in
    (r, with_world (fun w => set_fs (<[name := content]> (fs w))
                               (log (EvTmpWrite name) (is_ok r) w)) fr).

(** Lines 66-67, the body of the [with] block. *)
Definition write_upload (file : UploadFile) (name : string) : M unit :=
  data <- call EvFileRead (read file) ;;
  write_temporary_file name data ;;;
  set_temp_path name.

(** Lines 65-67: the upload goes to a temporary file. *)
Definition save_upload (file : UploadFile) : M unit :=
  suffix <- lift (match filename file with
                  | Some fn => Ok (snd (splitext fn))
                  | None => Raise (PyExc "TypeError"
                      "expected str, bytes or os.PathLike object, not NoneType")
                  end) ;;
  with_block (open_temporary_file suffix)
             (write_upload file)
             (fun name => call (EvTmpClose name) (tmp_close svc name)).

(** Lines 70-87: the file goes to the inference service, which answers
    with a text; the text is printed. *)
Definition infer : M (option string) :=
  let api_key := getenv (os_environ app) "GEMINI_API_KEY" in
  call (EvGenaiClient api_key) (genai_Client svc api_key) ;;;
  path <- read_temp_path ;;
  my_file <- call (EvFilesUpload path) (files_upload svc path) ;;
  text <- call (EvGenerateContent "gemini-2.5-flash")
               (generate_content svc "gemini-2.5-flash" my_file prompt) ;;
  modify (put_stdout ("Gemini raw output: " ++ str_opt text)) ;;;
  ret text.

Definition add_pending (b : Book) : M unit :=
  fun fr => (Ok tt, {| world := world fr; pending := (pending fr ++ [b])%list;
                       temp_path := temp_path fr |}).

(** A commit that returns makes the rows of the transaction durable. *)
Definition commit_pending : M unit :=
  fun fr => (Ok tt, {| world := set_books (books (world fr) ++ pending fr)%list (world fr);
                       pending := [];
                       temp_path := temp_path fr |}).

(** Lines 91-105: one connection, one INSERT, commit, close. *)
Definition insert_book (book_data : value) : M Z :=
  call (EvConnect (DB_HOST app) (DB_NAME app) (DB_USER app) (DB_PASS app))
       (psycopg2_connect svc (DB_HOST app) (DB_NAME app) (DB_USER app) (DB_PASS app)) ;;;
  call EvCursor (conn_cursor svc) ;;;
  title <- lift (embed (subscript book_data "title")) ;;
  genre <- lift (embed (subscript book_data "genre")) ;;
  new_id <- call (EvExecute query title genre) (cur_execute svc query title genre) ;;
  add_pending (mkBook new_id title genre) ;;;
  call EvCommit (conn_commit svc) ;;;
  commit_pending ;;;
  call EvCursorClose (cur_close svc) ;;;
  call EvConnectionClose (conn_close svc) ;;;
  ret new_id.

(** Lines 107-111: one row appended to worksheet "Sheet1". *)
Definition append_to_sheet (new_id : Z) (book_data : value) : M unit :=
  call (EvWorksheet (sheet app) "Sheet1") (sheet_worksheet svc (sheet app) "Sheet1") ;;;
  let added_at := strftime_mdY_HMS (datetime_now svc) in
  title <- lift (embed (subscript book_data "title")) ;;
  genre <- lift (embed (subscript book_data "genre")) ;;
  let row := [VInt new_id; title; genre; VStr added_at] in
  call (EvAppendRow (sheet app) "Sheet1" row)
       (append_row svc (sheet app) "Sheet1" row) ;;;
  modify (fun w =>
    set_sheets (<[(sheet app, "Sheet1") :=
                   (default [] (sheets w !! (sheet app, "Sheet1")) ++ [row])%list]>
                  (sheets w)) w).

(** Lines 64-117, the [try] block. *)
Definition upload_book_try (file : UploadFile) : M value :=
  save_upload file ;;;
  text <- infer ;;
  book_data <- lift (embed (json_loads text)) ;;
  new_id <- insert_book book_data ;;
  append_to_sheet new_id book_data ;;;
  ret (success_payload book_data).

(** [os.remove(path)] on the file system of the model: the file is removed
    when it is there, and [FileNotFoundError] is raised when it is not.
    Other failures of the operating system (a directory that cannot be
    written, say) are outside the model. *)
Definition os_remove (path : string) : M unit :=
  fun fr =>
    match fs (world fr) !! path with
    | Some _ =>
        (Ok tt, with_world (fun w => set_fs (delete path (fs w)) (log (EvRemove path) true w)) fr)
    | None =>
        (Raise (PyExc "FileNotFoundError"
                  ("[Errno 2] No such file or directory: '" ++ path ++ "'")),
         with_world (log (EvRemove path) false) fr)
    end.

(** Lines 121-124, the [finally] block. *)
Definition remove_temp_file : M unit :=
  fun fr =>
    match temp_path fr with
    | Some path =>
        match fs (world fr) !! path with
        | Some _ => os_remove path fr
        | None => (Ok tt, fr)
        end
    | None => (Ok tt, fr)
    end.

(** The frame in which an invocation starts: no local is bound. *)
Definition enter (w : World) : Frame :=
  {| world := w; pending := []; temp_path := None |}.

(** The handler: what it returns or raises, and the world it leaves. *)
Definition upload_book (file : UploadFile) (w : World) : Call value * World :=
  let '(r, fr) :=
    try_except_finally
      (upload_book_try file)
      (fun e => raise (HTTPException 500 (str_exn e)))
      remove_temp_file
      (enter w) in
  (r, world fr).

(** *** Scenarios: how far a request gets

    Each predicate says that the calls of a stage return, given what the
    collaborators answer. *)

(** Lines 65-67 run through: the upload [data] is in the file [path]. *)
Definition temp_written (file : UploadFile) (path data : string) : Prop :=
  exists fn,
    filename file = Some fn /\
    NamedTemporaryFile svc (snd (splitext fn)) = Ok path /\
    read file = Ok data /\
    tmp_write svc path data = Ok tt /\
    tmp_close svc path = Ok tt.

(** Lines 65-87 run through: the inference service answers [text]. *)
Definition inference_returns (file : UploadFile) (path : string)
    (text : option string) : Prop :=
  exists data my_file,
    temp_written file path data /\
    genai_Client svc (getenv (os_environ app) "GEMINI_API_KEY") = Ok tt /\
    files_upload svc path = Ok my_file /\
    generate_content svc "gemini-2.5-flash" my_file prompt = Ok text.

(** Every call of the store block returns, the INSERT with [new_id]. *)
Definition store_insert_succeeds (title genre : value) (new_id : Z) : Prop :=
  psycopg2_connect svc (DB_HOST app) (DB_NAME app) (DB_USER app) (DB_PASS app) = Ok tt /\
  conn_cursor svc = Ok tt /\
  cur_execute svc query title genre = Ok new_id /\
  conn_commit svc = Ok tt /\
  cur_close svc = Ok tt /\
  conn_close svc = Ok tt.

(** The row the handler builds for the sheet. *)
Definition sheet_row (new_id : Z) (title genre : value) : list value :=
  [VInt new_id; title; genre; VStr (strftime_mdY_HMS (datetime_now svc))].

(** Both calls of the sheet block return. *)
Definition sheet_append_succeeds (row : list value) : Prop :=
  sheet_worksheet svc (sheet app) "Sheet1" = Ok tt /\
  append_row svc (sheet app) "Sheet1" row = Ok tt.

(** *** The exception that leaves the [try] block

    [raised_in_try file e]: a call of steps 1-5 raises [e], an instance of
    [Exception], and the calls before it, in the order of the source, have
    returned.  The exception of [tmp.close()], which the [with] statement
    makes on leaving its block, replaces what the block raised. *)





End Handler.

(** ** Reading a trace *)

(** The Python name of the call an event records. *)
Definition call_name (ev : Event) : string :=
  match ev with
  | EvNamedTemporaryFile _ => "tempfile.NamedTemporaryFile"
  | EvFileRead => "file.read"
  | EvTmpWrite _ => "tmp.write"
  | EvTmpClose _ => "tmp.close"
  | EvGenaiClient _ => "genai.Client"
  | EvFilesUpload _ => "client.files.upload"
  | EvGenerateContent _ => "client.models.generate_content"
  | EvConnect _ _ _ _ => "psycopg2.connect"
  | EvCursor => "conn.cursor"
  | EvExecute _ _ _ => "cur.execute"
  | EvCommit => "conn.commit"
  | EvCursorClose => "cur.close"
  | EvConnectionClose => "conn.close"
  | EvWorksheet _ _ => "sheet.worksheet"
  | EvAppendRow _ _ _ => "worksheet.append_row"
  | EvRemove _ => "os.remove"
  end.

(** The calls of the store block (lines 91-105). *)
Definition store_calls : list string :=
  [ "psycopg2.connect"; "conn.cursor"; "cur.execute"; "conn.commit";
    "cur.close"; "conn.close" ].

Definition is_call (name : string) (entry : Event * bool) : bool :=
  String.eqb (call_name (fst entry)) name.

(** The call was made. *)
Definition attempted (name : string) (tr : list (Event * bool)) : bool :=
  existsb (is_call name) tr.

(** The call was made and raised. *)
Definition raised (name : string) (tr : list (Event * bool)) : bool :=
  existsb (fun entry => is_call name entry && negb (snd entry)) tr.

(** The call was made and returned. *)
Definition returned (name : string) (tr : list (Event * bool)) : bool :=
  existsb (fun entry => is_call name entry && snd entry) tr.

(** Every call named [later] comes after a call named [earlier]. *)
Fixpoint preceded_by (earlier later : string) (tr : list (Event * bool)) : bool :=
  match tr with
  | [] => true
  | entry :: tr' =>
      if is_call earlier entry then true
      else negb (is_call later entry) && preceded_by earlier later tr'
  end.

(** How often a call was made. *)
Definition times (name : string) (tr : list (Event * bool)) : nat :=
  length (List.filter (is_call name) tr).

(** The entries a request added to the trace. *)
Definition new_trace (before after : World) : list (Event * bool) :=
  drop (length (trace before)) (trace after).



(** The names of the calls of a trace, in order. *)
Definition call_names (tr : list (Event * bool)) : list string :=
  map (fun entry => call_name (fst entry)) tr.

(** ** Start-up requirements *)

(** The environment variables the module reads. *)
Definition store_options : list string :=
  [ "DB_HOST"; "DB_NAME"; "DB_USER"; "DB_PASS" ].

Definition recognized_options : list string :=
  (store_options ++ [ "GEMINI_API_KEY" ])%list.

(** The process does not start when the variable [name] is absent,
    whatever else the environment holds and whatever the start-up
    collaborators answer. *)
Definition required_at_startup (name : string) : Prop :=
  forall (st : Startup) (dotenv environ : gmap string string),
    getenv (load_dotenv dotenv environ) name = None ->
    exists e, module_init st dotenv environ = Raise e.

(** ** A concrete deployment and its requests *)

Definition quoted (s : string) : string := String dquote (s ++ String dquote "").

Definition dune_text : string :=
  "{" ++ quoted "title" ++ ":" ++ quoted "Dune" ++ ","
      ++ quoted "genre" ++ ":" ++ quoted "Science Fiction" ++ "}".

Definition dune_isbn_text : string :=
  "{" ++ quoted "title" ++ ":" ++ quoted "Dune" ++ ","
      ++ quoted "genre" ++ ":" ++ quoted "Science Fiction" ++ ","
      ++ quoted "isbn" ++ ":" ++ quoted "9780441013593" ++ "}".

Definition apology_text : string := "I could not find a book in this image.".

Definition store_environ : gmap string string :=
  list_to_map [ ("DB_HOST", "localhost"); ("DB_NAME", "library");
                ("DB_USER", "librarian"); ("DB_PASS", "s3cret") ].

Definition home_environ : gmap string string :=
  <["GEMINI_API_KEY" := "k-123"]> store_environ.

Definition startup_ok : Startup :=
  {| from_json_keyfile_name := fun _ _ => Ok tt;
     authorize := Ok tt;
     client_open := fun _ => Ok tt;
     StaticFiles := fun _ => Ok tt |}.

Definition home_app : App :=
  {| DB_HOST := Some "localhost"; DB_NAME := Some "library";
     DB_USER := Some "librarian"; DB_PASS := Some "s3cret";
     sheet := SHEET_NAME; os_environ := home_environ |}.

Definition cover_jpg : UploadFile :=
  {| filename := Some "cover.jpg"; read := Ok "JFIF-bytes" |}.

Definition noon : DateTime :=
  {| year := 2025; month := 3; day := 9; hour := 12; minute := 5; second := 0 |}.

(** Collaborators that all return, the four given answers apart. *)
Definition scripted (write_answer : Call unit) (text : Call (option string))
    (insert_answer : Call Z) (append_answer : Call unit) : Services :=
  {| NamedTemporaryFile := fun suffix => Ok ("/tmp/tmpq1w2e3" ++ suffix);
     tmp_write := fun _ _ => write_answer;
     tmp_partial := fun _ _ => "";
     tmp_close := fun _ => Ok tt;
     genai_Client := fun _ => Ok tt;
     files_upload := fun _ => Ok "files/abc";
     generate_content := fun _ _ _ => text;
     psycopg2_connect := fun _ _ _ _ => Ok tt;
     conn_cursor := Ok tt;
     cur_execute := fun _ _ _ => insert_answer;
     conn_commit := Ok tt;
     cur_close := Ok tt;
     conn_close := Ok tt;
     sheet_worksheet := fun _ _ => Ok tt;
     datetime_now := noon;
     append_row := fun _ _ _ => append_answer |}.

Definition healthy (text : string) : Services :=
  scripted (Ok tt) (Ok (Some text)) (Ok 7%Z) (Ok tt).

Definition disk_full : Services :=
  scripted (Raise (PyExc "OSError" "[Errno 28] No space left on device"))
           (Ok (Some dune_text)) (Ok 7%Z) (Ok tt).

Definition inference_down : Services :=
  scripted (Ok tt)
           (Raise (PyExc "ServerError" "503 UNAVAILABLE. The model is overloaded."))
           (Ok 7%Z) (Ok tt).

Definition store_down : Services :=
  scripted (Ok tt) (Ok (Some dune_text))
           (Raise (PyExc "OperationalError" "server closed the connection unexpectedly"))
           (Ok tt).

Definition sheet_down : Services :=
  scripted (Ok tt) (Ok (Some dune_text)) (Ok 7%Z)
           (Raise (PyExc "APIError" "quota exceeded")).

Definition emma_row : list value :=
  [VInt 6; VStr "Emma"; VStr "Novel"; VStr "01/05/2025 09:30:00"].

Definition library : World :=
  {| fs := ∅;
     books := [mkBook 6 (VStr "Emma") (VStr "Novel")];
     sheets := {[ (SHEET_NAME, "Sheet1") := [emma_row] ]};
     stdout := [];
     trace := [] |}.

Definition dune_dict : list (string * value) :=
  [("title", VStr "Dune"); ("genre", VStr "Science Fiction")].

Definition dune_isbn_dict : list (string * value) :=
  [("title", VStr "Dune"); ("genre", VStr "Science Fiction");
   ("isbn", VStr "9780441013593")].

Definition dune_row : list value :=
  [VInt 7; VStr "Dune"; VStr "Science Fiction"; VStr "03/09/2025 12:05:00"].

(** ** Notions used to state further properties *)

(** The exception of line 40. *)
Definition missing_options : Exn :=
  PyExc "Exception" "Missing one or more required database environment variables".

(** The module global that holds the store option [name]. *)
Definition store_global (a : App) (name : string) : option string :=
  if String.eqb name "DB_HOST" then DB_HOST a
  else if String.eqb name "DB_NAME" then DB_NAME a
  else if String.eqb name "DB_USER" then DB_USER a
  else if String.eqb name "DB_PASS" then DB_PASS a
  else None.

(** Does the character occur in the string? *)
Fixpoint occurs (c : ascii) (s : string) : bool :=
  match s with
  | EmptyString => false
  | String a r => Ascii.eqb a c || occurs c r
  end.

(** The string without its first [n] characters. *)
Fixpoint string_drop (n : nat) (s : string) : string :=
  match n, s with
  | O, _ => s
  | S n', String _ r => string_drop n' r
  | S _, EmptyString => EmptyString
  end.

(** A file name extension: nothing, or a period followed by characters
    among which there is no period and no path separator. *)
Definition is_extension (s : string) : bool :=
  match s with
  | EmptyString => true
  | String a r => Ascii.eqb a "." && negb (occurs "." r) && negb (occurs "/" r)
  end.

(** Every call of a request returns: the inference answer is decoded to
    [book_data], its [title] and [genre] are inserted under [new_id], and
    the row is appended to the sheet. *)
Definition request_succeeds (json_loads : option string -> Result value)
    (app : App) (svc : Services) (file : UploadFile)
    (book_data title genre : value) (new_id : Z) : Prop :=
  exists path text,
    inference_returns app svc file path text /\
    json_loads text = Ok book_data /\
    subscript book_data "title" = Ok title /\
    subscript book_data "genre" = Ok genre /\
    store_insert_succeeds app svc title genre new_id /\
    sheet_append_succeeds app svc (sheet_row svc new_id title genre).

(** The worksheet the handler writes to. *)
Definition sheet1 (a : App) : string * string := (sheet a, "Sheet1").

(** Collaborators of a request in which [cur.close()] raises after the
    commit. *)
Definition close_fails : Services :=
  {| NamedTemporaryFile := fun suffix => Ok ("/tmp/tmpq1w2e3" ++ suffix);
     tmp_write := fun _ _ => Ok tt;
     tmp_partial := fun _ _ => "";
     tmp_close := fun _ => Ok tt;
     genai_Client := fun _ => Ok tt;
     files_upload := fun _ => Ok "files/abc";
     generate_content := fun _ _ _ => Ok (Some dune_text);
     psycopg2_connect := fun _ _ _ _ => Ok tt;
     conn_cursor := Ok tt;
     cur_execute := fun _ _ _ => Ok 7%Z;
     conn_commit := Ok tt;
     cur_close := Raise (PyExc "InterfaceError" "cursor already closed");
     conn_close := Ok tt;
     sheet_worksheet := fun _ _ => Ok tt;
     datetime_now := noon;
     append_row := fun _ _ _ => Ok tt |}.

(** Collaborators of a request in which the disk is full after the first
    four bytes of the upload. *)
Definition half_written : Services :=
  {| NamedTemporaryFile := fun suffix => Ok ("/tmp/tmpq1w2e3" ++ suffix);
     tmp_write := fun _ _ =>
       Raise (PyExc "OSError" "[Errno 28] No space left on device");
     tmp_partial := fun _ data => String.substring 0 4 data;
     tmp_close := fun _ => Ok tt;
     genai_Client := fun _ => Ok tt;
     files_upload := fun _ => Ok "files/abc";
     generate_content := fun _ _ _ => Ok (Some dune_text);
     psycopg2_connect := fun _ _ _ _ => Ok tt;
     conn_cursor := Ok tt;
     cur_execute := fun _ _ _ => Ok 7%Z;
     conn_commit := Ok tt;
     cur_close := Ok tt;
     conn_close := Ok tt;
     sheet_worksheet := fun _ _ => Ok tt;
     datetime_now := noon;
     append_row := fun _ _ _ => Ok tt |}.

(** A second request, a minute later, to which the store gives the next
    identifier. *)
Definition later : DateTime :=
  {| year := 2025; month := 3; day := 9; hour := 12; minute := 6; second := 0 |}.

Definition healthy_again : Services :=
  {| NamedTemporaryFile := fun suffix => Ok ("/tmp/tmpz9y8x7" ++ suffix);
     tmp_write := fun _ _ => Ok tt;
     tmp_partial := fun _ _ => "";
     tmp_close := fun _ => Ok tt;
     genai_Client := fun _ => Ok tt;
     files_upload := fun _ => Ok "files/def";
     generate_content := fun _ _ _ => Ok (Some dune_text);
     psycopg2_connect := fun _ _ _ _ => Ok tt;
     conn_cursor := Ok tt;
     cur_execute := fun _ _ _ => Ok 8%Z;
     conn_commit := Ok tt;
     cur_close := Ok tt;
     conn_close := Ok tt;
     sheet_worksheet := fun _ _ => Ok tt;
     datetime_now := later;
     append_row := fun _ _ _ => Ok tt |}.

Definition title_only_text : string :=
  "{" ++ quoted "title" ++ ":" ++ quoted "Dune" ++ "}".

Definition list_text : string :=
  "[" ++ quoted "Dune" ++ "," ++ quoted "Science Fiction" ++ "]".


Definition no_name_upload : UploadFile :=
  {| filename := None; read := Ok "JFIF-bytes" |}.

(** A [.env] file that supplies the password and the API key. *)
Definition dotenv_file : gmap string string :=
  list_to_map [ ("DB_PASS", "from-dotenv"); ("DB_HOST", "ignored");
                ("GEMINI_API_KEY", "k-dotenv") ].

Definition partial_environ : gmap string string :=
  list_to_map [ ("DB_HOST", "localhost"); ("DB_NAME", "library");
                ("DB_USER", "librarian") ].

(** The globals of a process started with [partial_environ] and
    [dotenv_file]. *)
Definition dotenv_app : App :=
  {| DB_HOST := Some "localhost"; DB_NAME := Some "library";
     DB_USER := Some "librarian"; DB_PASS := Some "from-dotenv";
     sheet := SHEET_NAME; os_environ := load_dotenv dotenv_file partial_environ |}.

(** * Properties *)

(** ** The decoder and the library functions on the inputs used below *)

Example json_loads_dune : py_json_loads (Some dune_text) = Ok (VDict dune_dict).
Proof. vm_compute. reflexivity. Qed.

Example json_loads_dune_isbn :
  py_json_loads (Some dune_isbn_text) = Ok (VDict dune_isbn_dict).
Proof. vm_compute. reflexivity. Qed.

Example json_loads_apology :
  py_json_loads (Some apology_text)
  = Raise (PyExc "JSONDecodeError" "Expecting value: line 1 column 1 (char 0)").
Proof. vm_compute. reflexivity. Qed.

Example splitext_cover : splitext "cover.jpg" = ("cover", ".jpg").
Proof. vm_compute. reflexivity. Qed.

Example splitext_hidden : splitext "uploads/.cover" = ("uploads/.cover", "").
Proof. vm_compute. reflexivity. Qed.

Example strftime_noon : strftime_mdY_HMS noon = "03/09/2025 12:05:00".
Proof. vm_compute. reflexivity. Qed.

Example module_init_home : module_init startup_ok ∅ home_environ = Ok home_app.
Proof. vm_compute. reflexivity. Qed.

(** ** The digits of a time stamp *)

Lemma is_digit_digit_char (d : Z) : is_digit (digit_char d) = true.
Proof.
  unfold digit_char.
  assert (H : (0 <= d mod 10 < 10)%Z) by (apply Z.mod_pos_bound; lia).
  assert (Hcases : (d mod 10 = 0 \/ d mod 10 = 1 \/ d mod 10 = 2 \/ d mod 10 = 3 \/
                    d mod 10 = 4 \/ d mod 10 = 5 \/ d mod 10 = 6 \/ d mod 10 = 7 \/
                    d mod 10 = 8 \/ d mod 10 = 9)%Z) by lia.
  destruct Hcases as [E|[E|[E|[E|[E|[E|[E|[E|[E|E]]]]]]]]]; rewrite E; reflexivity.
Qed.

Lemma strftime_shape (t : DateTime) : is_mdY_HMS (strftime_mdY_HMS t) = true.
Proof.
  unfold is_mdY_HMS, strftime_mdY_HMS, pad2, pad4. simpl.
  rewrite !is_digit_digit_char. reflexivity.
Qed.

Lemma digit_value_digit_char (d : Z) :
  digit_value (digit_char d) = Some (d mod 10)%Z.
Proof.
  unfold digit_value. rewrite is_digit_digit_char. f_equal.
  unfold digit_char.
  assert (H : (0 <= d mod 10 < 10)%Z) by (apply Z.mod_pos_bound; lia).
  rewrite nat_ascii_embedding by lia. lia.
Qed.

(** Reading back what [strftime] wrote gives the time it was given: month
    first, then day, then the year, then hour, minute and second. *)
Lemma strptime_strftime (t : DateTime) :
  valid_datetime t -> strptime_mdY_HMS (strftime_mdY_HMS t) = Some t.
Proof.
  intros (Hy & Hmo & Hd & Hh & Hmi & Hs).
  destruct t as [y mo d h mi s]; simpl in *.
  unfold strptime_mdY_HMS, strftime_mdY_HMS, pad2, pad4. simpl.
  rewrite !digit_value_digit_char. simpl.
  f_equal. f_equal; Z.div_mod_to_equations; lia.
Qed.

(** ** The handler, path by path *)

Section HandlerProperties.

Variable json_loads : option string -> Result value.
Variable app : App.
Variable svc : Services.

(** Unfold the handler down to the collaborators' answers. *)
Ltac unfold_handler :=
  unfold upload_book, try_except_finally, upload_book_try, save_upload,
    with_block, open_temporary_file, write_upload, write_temporary_file, infer,
    insert_book, append_to_sheet, remove_temp_file, os_remove, read_temp_path,
    set_temp_path, add_pending, commit_pending, call, bind, lift, modify, ret,
    raise, enter, with_world.

(** Split on the answer of the next collaborator. *)
Ltac next_answer :=
  match goal with
  | |- context [match filename ?f with Some _ => _ | None => _ end] =>
      destruct (filename f) eqn:?; simpl
  | |- context [embed ?r] =>
      destruct r as [?|?|[]] eqn:?; simpl
  | |- context [match ?r with Ok _ => _ | Raise _ => _ | Escapes _ => _ end] =>
      destruct r eqn:?; simpl
  | |- context [(<[?k:=?v]> ?m) !! ?k] => rewrite (lookup_insert_eq m k v); simpl
  end.

(** Every path through the handler. *)
Ltac run_all := unfold_handler; simpl; repeat next_answer.

(** Every path through the handler, with what it gives back and the world
    it leaves named first and put in place at the end of each path. *)
Ltac run_paths :=
  match goal with
  | |- context [upload_book ?j ?a ?s ?f ?w] =>
      let E := fresh "E" in
      destruct (upload_book j a s f w) as [? ?] eqn:E;
      revert E; unfold_handler; simpl; repeat next_answer;
      intros [= <- <-]; simpl
  end.

(** Use the answers the hypotheses give. *)
Ltac use_answer :=
  match goal with
  | H : ?lhs = Ok _ |- context [?lhs] => rewrite H; simpl
  | H : ?lhs = Raise _ |- context [?lhs] => rewrite H; simpl
  | H : ?lhs = Some _ |- context [?lhs] => rewrite H; simpl
  | H : ?lhs = None |- context [?lhs] => rewrite H; simpl
  | |- context [(<[?k:=?v]> ?m) !! ?k] => rewrite (lookup_insert_eq m k v); simpl
  end.

Ltac run_with := unfold_handler; simpl; repeat use_answer.

(** Name what the handler gives back and the world it leaves, and compute
    both from the hypotheses. *)
Ltac run_once :=
  match goal with
  | |- context [upload_book ?j ?a ?s ?f ?w] =>
      let E := fresh "E" in
      destruct (upload_book j a s f w) as [? ?] eqn:E;
      revert E; run_with; intros [= <- <-]; simpl
  end.

(** The entries added to the trace, as a list. *)
Ltac norm_trace :=
  unfold new_trace; simpl; repeat rewrite <- app_assoc; simpl;
  rewrite ?drop_app_length, ?drop_all.

Ltac open_scenario :=
  repeat match goal with
  | H : inference_returns _ _ _ _ _ |- _ =>
      destruct H as (? & ? & ? & ? & ? & ?)
  | H : temp_written _ _ _ _ |- _ =>
      destruct H as (? & ? & ? & ? & ? & ?)
  | H : store_insert_succeeds _ _ _ _ _ |- _ =>
      destruct H as (? & ? & ? & ? & ? & ?)
  | H : sheet_append_succeeds _ _ _ |- _ =>
      unfold sheet_row in H; destruct H as (? & ?)
  end.

(** The [finally] block never raises: [os.remove] is only called on a path
    that exists. *)
Lemma remove_temp_file_returns (fr : Frame) :
  fst (remove_temp_file fr) = Ok tt.
Proof.
  unfold remove_temp_file, os_remove.
  destruct (temp_path fr) as [path|]; [|reflexivity].
  destruct (fs (world fr) !! path) eqn:E; [|reflexivity].
  reflexivity.
Qed.

(** What the handler gives back is decided by the [try] block alone. *)
Lemma upload_book_result (file : UploadFile) (w : World) :
  fst (upload_book json_loads app svc file w) =
  match fst (upload_book_try json_loads app svc file (enter w)) with
  | Ok v => Ok v
  | Raise e => Raise (HTTPException 500 (str_exn e))
  | Escapes b => Escapes b
  end.
Proof.
  unfold upload_book, try_except_finally.
  destruct (upload_book_try json_loads app svc file (enter w)) as [[v|e|b] fr];
    simpl; unfold raise;
    pose proof (remove_temp_file_returns fr) as H;
    destruct (remove_temp_file fr) as [[u|e'|b'] fr']; simpl in *; congruence.
Qed.

(** Once lines 65-67 have run through, the temporary file is gone when the
    handler is left, whatever happens later. *)
Lemma temp_file_removed_once_written (file : UploadFile) (w : World)
    (path data : string) :
  temp_written svc file path data ->
  fs (snd (upload_book json_loads app svc file w)) !! path = None.
Proof.
  intros H. open_scenario.
  unfold_handler; simpl. repeat use_answer.
  repeat next_answer; apply lookup_delete_eq.
Qed.

(** When the write of line 66 raises, [temp_path] is still unbound in the
    [finally] block, and the file line 65 created stays on disk, with what
    the failing write left in it. *)
Lemma temp_file_left_when_write_raises (file : UploadFile) (w : World)
    (fn path data : string) (e : Exn) :
  filename file = Some fn ->
  NamedTemporaryFile svc (snd (splitext fn)) = Ok path ->
  read file = Ok data ->
  tmp_write svc path data = Raise e ->
  fs (snd (upload_book json_loads app svc file w)) !! path
  = Some (tmp_partial svc path data).
Proof.
  intros Hfn Hntf Hread Hwrite.
  run_with. repeat next_answer; first [reflexivity | apply lookup_insert_eq].
Qed.


(** C2. The sheet append is only attempted after the INSERT has been
    attempted; and when a call of the store block raises, the request makes
    no sheet append and leaves every worksheet as it was. *)
Theorem C2_sheet_only_after_store (file : UploadFile) (w : World) :
  preceded_by "cur.execute" "worksheet.append_row"
    (new_trace w (snd (upload_book json_loads app svc file w))) = true /\
  (forall name,
     In name store_calls ->
     raised name (new_trace w (snd (upload_book json_loads app svc file w))) = true ->
     attempted "worksheet.append_row"
       (new_trace w (snd (upload_book json_loads app svc file w))) = false /\
     sheets (snd (upload_book json_loads app svc file w)) = sheets w).
Proof.
  assert (Hpaths :
    preceded_by "cur.execute" "worksheet.append_row"
      (new_trace w (snd (upload_book json_loads app svc file w))) = true /\
    (raised "psycopg2.connect"
       (new_trace w (snd (upload_book json_loads app svc file w)))
     || raised "conn.cursor"
          (new_trace w (snd (upload_book json_loads app svc file w)))
     || raised "cur.execute"
          (new_trace w (snd (upload_book json_loads app svc file w)))
     || raised "conn.commit"
          (new_trace w (snd (upload_book json_loads app svc file w)))
     || raised "cur.close"
          (new_trace w (snd (upload_book json_loads app svc file w)))
     || raised "conn.close"
          (new_trace w (snd (upload_book json_loads app svc file w))) = true ->
     attempted "worksheet.append_row"
       (new_trace w (snd (upload_book json_loads app svc file w))) = false /\
     sheets (snd (upload_book json_loads app svc file w)) = sheets w)).
  { run_paths; norm_trace; (split; [reflexivity|]);
      intros Hr; first [discriminate Hr | split; reflexivity]. }
  destruct Hpaths as [Horder Hraised].
  split; [exact Horder|].
  intros name Hin Hr. apply Hraised.
  simpl in Hin.
  destruct Hin as [<-|[<-|[<-|[<-|[<-|[<-|[]]]]]]]; rewrite Hr;
    rewrite ?orb_true_r; reflexivity.
Qed.





(** The sheet append is only attempted once every call of the store block
    has returned. *)
Lemma append_row_needs_store_block (file : UploadFile) (w : World) :
  attempted "worksheet.append_row"
    (new_trace w (snd (upload_book json_loads app svc file w))) = true ->
  forallb (fun name =>
             returned name (new_trace w (snd (upload_book json_loads app svc file w))))
          store_calls = true.
Proof.
  run_paths; norm_trace; intros H; first [discriminate H | reflexivity].
Qed.

(** C7. When the store block has run through and the sheet block raises
    [e] (opening the worksheet or appending the row), the handler fails with
    [e]'s message, the new row stays in [books], and no worksheet has
    changed. *)
Theorem C7_sheet_failure_keeps_store_row (file : UploadFile) (w : World)
    (path : string) (text : option string) (book_data title genre : value)
    (new_id : Z) (e : Exn) :
  inference_returns app svc file path text ->
  json_loads text = Ok book_data ->
  subscript book_data "title" = Ok title ->
  subscript book_data "genre" = Ok genre ->
  store_insert_succeeds app svc title genre new_id ->
  sheet_worksheet svc (sheet app) "Sheet1" = Raise e \/
  (sheet_worksheet svc (sheet app) "Sheet1" = Ok tt /\
   append_row svc (sheet app) "Sheet1" (sheet_row svc new_id title genre) = Raise e) ->
  fst (upload_book json_loads app svc file w)
  = Raise (HTTPException 500 (str_exn e)) /\
  books (snd (upload_book json_loads app svc file w))
  = (books w ++ [mkBook new_id title genre])%list /\
  sheets (snd (upload_book json_loads app svc file w)) = sheets w /\
  times "conn.commit" (new_trace w (snd (upload_book json_loads app svc file w))) = 1.
Proof.
  intros Hinf Hjson Ht Hg Hstore Hsheet. open_scenario.
  unfold sheet_row in Hsheet.
  destruct Hsheet as [Hws | [Hws Happ]];
    (run_once; repeat split; norm_trace; reflexivity).
Qed.

Lemma module_init_sheet (st : Startup) (dotenv environ : gmap string string)
    (a : App) :
  module_init st dotenv environ = Ok a -> sheet a = SHEET_NAME.
Proof.
  unfold module_init, rbind.
  destruct (from_json_keyfile_name st _ _) as [?|?|[]]; [|discriminate].
  destruct (authorize st) as [?|?|[]]; [|discriminate].
  destruct (client_open st _) as [?|?|[]]; [|discriminate].
  destruct (negb _); [discriminate|].
  destruct (StaticFiles st _) as [?|?|[]]; [|discriminate].
  intros [= <-]. reflexivity.
Qed.

(** C8. On the success path of a process started by [module_init], the
    worksheet "Sheet1" of the spreadsheet [SHEET_NAME] gains exactly one
    row: the identifier the INSERT returned, the title, the genre, and the
    server's local time written as MM/DD/YYYY HH:MM:SS: the text has that
    shape, and read back month first it gives the time of the server's
    clock.  No other worksheet changes. *)
Theorem C8_one_sheet_row (st : Startup) (dotenv environ : gmap string string)
    (file : UploadFile) (w : World) (path : string) (text : option string)
    (book_data title genre : value) (new_id : Z) :
  module_init st dotenv environ = Ok app ->
  valid_datetime (datetime_now svc) ->
  inference_returns app svc file path text ->
  json_loads text = Ok book_data ->
  subscript book_data "title" = Ok title ->
  subscript book_data "genre" = Ok genre ->
  store_insert_succeeds app svc title genre new_id ->
  sheet_append_succeeds app svc (sheet_row svc new_id title genre) ->
  exists added_at,
    added_at = strftime_mdY_HMS (datetime_now svc) /\
    is_mdY_HMS added_at = true /\
    strptime_mdY_HMS added_at = Some (datetime_now svc) /\
    sheets (snd (upload_book json_loads app svc file w))
    = <[(SHEET_NAME, "Sheet1") :=
          (default [] (sheets w !! (SHEET_NAME, "Sheet1"))
           ++ [[VInt new_id; title; genre; VStr added_at]])%list]> (sheets w) /\
    times "worksheet.append_row"
      (new_trace w (snd (upload_book json_loads app svc file w))) = 1.
Proof.
  intros Hinit Hnow Hinf Hjson Ht Hg Hstore Hsheet.
  apply module_init_sheet in Hinit.
  open_scenario.
  exists (strftime_mdY_HMS (datetime_now svc)).
  split; [reflexivity|]. split; [apply strftime_shape|].
  split; [apply strptime_strftime; exact Hnow|].
  rewrite <- Hinit.
  run_once. split; [reflexivity|].
  norm_trace. reflexivity.
Qed.

(** C9. On the success path the [book] of the response is the object
    [json.loads] gave, as it is: every field of that object, [title] and
    [genre] or any other, is in the response with its value. *)
Theorem C9_book_is_parsed_object (file : UploadFile) (w : World) (path : string)
    (text : option string) (d : list (string * value)) (title genre : value)
    (new_id : Z) :
  inference_returns app svc file path text ->
  json_loads text = Ok (VDict d) ->
  dict_get d "title" = Some title ->
  dict_get d "genre" = Some genre ->
  store_insert_succeeds app svc title genre new_id ->
  sheet_append_succeeds app svc (sheet_row svc new_id title genre) ->
  exists payload,
    fst (upload_book json_loads app svc file w) = Ok payload /\
    subscript payload "book" = Ok (VDict d) /\
    forall k v, dict_get d k = Some v ->
      rbind (subscript payload "book") (fun book => subscript book k) = Ok v.
Proof.
  intros Hinf Hjson Ht Hg Hstore Hsheet. open_scenario.
  exists (success_payload (VDict d)).
  split; [|split].
  - run_once. reflexivity.
  - reflexivity.
  - intros k v Hk. simpl. rewrite Hk. reflexivity.
Qed.

(** C10. Whenever the handler fails, what it raises is an [HTTPException]
    with status code 500, whichever stage failed. *)
Theorem C10_failure_status_is_500 (file : UploadFile) (w : World) (e : Exn) :
  fst (upload_book json_loads app svc file w) = Raise e ->
  exists detail, e = HTTPException 500 detail.
Proof.
  rewrite upload_book_result.
  destruct (fst (upload_book_try json_loads app svc file (enter w))) as [v|e0|b];
    [discriminate| |discriminate].
  intros [= <-]. eexists. reflexivity.
Qed.

End HandlerProperties.

(** ** The handler on concrete requests *)


Lemma C2_sheet_only_after_store_witness :
  attempted "worksheet.append_row"
    (new_trace library
       (snd (upload_book py_json_loads home_app store_down cover_jpg library))) = false /\
  sheets (snd (upload_book py_json_loads home_app store_down cover_jpg library))
  = sheets library.
Proof.
  apply (proj2 (C2_sheet_only_after_store py_json_loads home_app store_down
                  cover_jpg library) "cur.execute").
  - simpl. tauto.
  - vm_compute. reflexivity.
Defined.


(** C4. With a full disk, [tmp.write] raises after line 65 has created the
    file: the handler fails with status code 500, never calls [os.remove],
    and the file is still there when the request is over. *)
Theorem C4_temp_file_left_behind :
  fs library !! "/tmp/tmpq1w2e3.jpg" = None /\
  fst (upload_book py_json_loads home_app disk_full cover_jpg library)
  = Raise (HTTPException 500 "[Errno 28] No space left on device") /\
  fs (snd (upload_book py_json_loads home_app disk_full cover_jpg library))
    !! "/tmp/tmpq1w2e3.jpg" = Some "" /\
  attempted "os.remove"
    (new_trace library
       (snd (upload_book py_json_loads home_app disk_full cover_jpg library))) = false.
Proof.
  repeat split; vm_compute; reflexivity.
Qed.



(** The five stages, one failing at a time: the detail is the text of the
    exception the stage raised. *)
Example failure_details :
  fst (upload_book py_json_loads home_app disk_full cover_jpg library)
  = Raise (HTTPException 500 "[Errno 28] No space left on device") /\
  fst (upload_book py_json_loads home_app inference_down cover_jpg library)
  = Raise (HTTPException 500 "503 UNAVAILABLE. The model is overloaded.") /\
  fst (upload_book py_json_loads home_app (healthy apology_text) cover_jpg library)
  = Raise (HTTPException 500 "Expecting value: line 1 column 1 (char 0)") /\
  fst (upload_book py_json_loads home_app store_down cover_jpg library)
  = Raise (HTTPException 500 "server closed the connection unexpectedly") /\
  fst (upload_book py_json_loads home_app sheet_down cover_jpg library)
  = Raise (HTTPException 500 "quota exceeded").
Proof. repeat split; vm_compute; reflexivity. Qed.

(** An answer without [genre]: the lookup of line 98 raises [KeyError]
    after the connection has been opened, and nothing is inserted. *)
Example missing_genre :
  fst (upload_book py_json_loads home_app
         (healthy ("{" ++ quoted "title" ++ ":" ++ quoted "Dune" ++ "}"))
         cover_jpg library)
  = Raise (HTTPException 500 "'genre'") /\
  call_names
    (new_trace library
       (snd (upload_book py_json_loads home_app
               (healthy ("{" ++ quoted "title" ++ ":" ++ quoted "Dune" ++ "}"))
               cover_jpg library)))
  = [ "tempfile.NamedTemporaryFile"; "file.read"; "tmp.write"; "tmp.close";
      "genai.Client"; "client.files.upload"; "client.models.generate_content";
      "psycopg2.connect"; "conn.cursor"; "os.remove" ] /\
  books (snd (upload_book py_json_loads home_app
                (healthy ("{" ++ quoted "title" ++ ":" ++ quoted "Dune" ++ "}"))
                cover_jpg library))
  = books library.
Proof. repeat split; vm_compute; reflexivity. Qed.

(** ** Start-up *)

Lemma forallb_truthy_none (name : string) (env : gmap string string) :
  In name store_options ->
  getenv env name = None ->
  forallb truthy [getenv env "DB_HOST"; getenv env "DB_NAME";
                  getenv env "DB_USER"; getenv env "DB_PASS"] = false.
Proof.
  intros Hin Hnone. simpl in Hin.
  destruct Hin as [<-|[<-|[<-|[<-|[]]]]]; simpl; rewrite Hnone; simpl;
    rewrite ?andb_false_r; reflexivity.
Qed.

Lemma getenv_without_api_key (dotenv environ : gmap string string) (name : string) :
  In name store_options ->
  getenv (load_dotenv (delete "GEMINI_API_KEY" dotenv)
                      (delete "GEMINI_API_KEY" environ)) name
  = getenv (load_dotenv dotenv environ) name.
Proof.
  intros Hin. unfold getenv, load_dotenv.
  assert (Hne : "GEMINI_API_KEY" <> name).
  { simpl in Hin. destruct Hin as [<-|[<-|[<-|[<-|[]]]]]; discriminate. }
  rewrite !lookup_union, !lookup_delete_ne by exact Hne. reflexivity.
Qed.

(** A process whose environment has the four store options and no API
    key starts: the API key is not required at start-up. *)
Lemma C6_starts_without_api_key :
  In "GEMINI_API_KEY" recognized_options /\
  getenv (load_dotenv ∅ store_environ) "GEMINI_API_KEY" = None /\
  is_ok (module_init startup_ok ∅ store_environ) = true /\
  ~ required_at_startup "GEMINI_API_KEY".
Proof.
  split; [simpl; tauto|]. split; [vm_compute; reflexivity|].
  split; [vm_compute; reflexivity|].
  intros Hreq.
  destruct (Hreq startup_ok ∅ store_environ) as [e He]; [vm_compute; reflexivity|].
  vm_compute in He. discriminate He.
Qed.

(** C6 (amended). The process does not start when one of the four store
    options is absent.  The API key of the inference service plays no part
    in start-up: removing it from the environment does not change whether
    the process starts. *)
Theorem C6_store_options_required :
  (forall name, In name store_options -> required_at_startup name) /\
  (forall (st : Startup) (dotenv environ : gmap string string),
     is_ok (module_init st (delete "GEMINI_API_KEY" dotenv)
                           (delete "GEMINI_API_KEY" environ))
     = is_ok (module_init st dotenv environ)).
Proof.
  split.
  - intros name Hin st dotenv environ Hnone.
    unfold module_init, rbind.
    destruct (from_json_keyfile_name st _ _) as [?|?|[]]; [|eexists; reflexivity].
    destruct (authorize st) as [?|?|[]]; [|eexists; reflexivity].
    destruct (client_open st _) as [?|?|[]]; [|eexists; reflexivity].
    rewrite (forallb_truthy_none name _ Hin Hnone). simpl.
    eexists; reflexivity.
  - intros st dotenv environ.
    unfold module_init, rbind.
    rewrite !getenv_without_api_key by (simpl; tauto).
    destruct (from_json_keyfile_name st _ _) as [?|?|[]]; [|reflexivity].
    destruct (authorize st) as [?|?|[]]; [|reflexivity].
    destruct (client_open st _) as [?|?|[]]; [|reflexivity].
    destruct (negb _); [reflexivity|].
    destruct (StaticFiles st _) as [?|?|[]]; reflexivity.
Qed.

Lemma C6_store_options_required_witness :
  exists e, module_init startup_ok ∅ (delete "DB_PASS" home_environ) = Raise e.
Proof.
  apply (proj1 C6_store_options_required "DB_PASS").
  - simpl. tauto.
  - vm_compute. reflexivity.
Defined.

Lemma C7_sheet_failure_keeps_store_row_witness :
  fst (upload_book py_json_loads home_app sheet_down cover_jpg library)
  = Raise (HTTPException 500 (str_exn (PyExc "APIError" "quota exceeded"))) /\
  books (snd (upload_book py_json_loads home_app sheet_down cover_jpg library))
  = (books library ++ [mkBook 7 (VStr "Dune") (VStr "Science Fiction")])%list /\
  sheets (snd (upload_book py_json_loads home_app sheet_down cover_jpg library))
  = sheets library /\
  times "conn.commit"
    (new_trace library
       (snd (upload_book py_json_loads home_app sheet_down cover_jpg library))) = 1.
Proof.
  apply (C7_sheet_failure_keeps_store_row py_json_loads home_app sheet_down cover_jpg
           library "/tmp/tmpq1w2e3.jpg" (Some dune_text) (VDict dune_dict)
           (VStr "Dune") (VStr "Science Fiction") 7
           (PyExc "APIError" "quota exceeded")).
  - exists "JFIF-bytes", "files/abc". split.
    + exists "cover.jpg". repeat split; vm_compute; reflexivity.
    + repeat split; vm_compute; reflexivity.
  - vm_compute. reflexivity.
  - reflexivity.
  - reflexivity.
  - repeat split; reflexivity.
  - right. split; vm_compute; reflexivity.
Defined.

Lemma C8_one_sheet_row_witness :
  strptime_mdY_HMS "03/09/2025 12:05:00" = Some noon /\
  sheets (snd (upload_book py_json_loads home_app (healthy dune_text) cover_jpg library))
  = <[(SHEET_NAME, "Sheet1") :=
        (default [] (sheets library !! (SHEET_NAME, "Sheet1"))
         ++ [[VInt 7; VStr "Dune"; VStr "Science Fiction";
              VStr "03/09/2025 12:05:00"]])%list]>
      (sheets library) /\
  times "worksheet.append_row"
    (new_trace library
       (snd (upload_book py_json_loads home_app (healthy dune_text) cover_jpg library)))
  = 1.
Proof.
  destruct (C8_one_sheet_row py_json_loads home_app (healthy dune_text) startup_ok ∅
              home_environ cover_jpg library "/tmp/tmpq1w2e3.jpg" (Some dune_text)
              (VDict dune_dict) (VStr "Dune") (VStr "Science Fiction") 7)
    as (added_at & Hat & _ & Hread & Hsheets & Htimes).
  - vm_compute. reflexivity.
  - unfold valid_datetime. simpl. lia.
  - exists "JFIF-bytes", "files/abc". split.
    + exists "cover.jpg". repeat split; vm_compute; reflexivity.
    + repeat split; vm_compute; reflexivity.
  - vm_compute. reflexivity.
  - reflexivity.
  - reflexivity.
  - repeat split; reflexivity.
  - repeat split; vm_compute; reflexivity.
  - subst added_at. split; [exact Hread|]. split; [exact Hsheets|exact Htimes].
Defined.

Lemma C9_book_is_parsed_object_witness :
  exists payload,
    fst (upload_book py_json_loads home_app (healthy dune_isbn_text) cover_jpg library)
    = Ok payload /\
    subscript payload "book" = Ok (VDict dune_isbn_dict) /\
    forall k v, dict_get dune_isbn_dict k = Some v ->
      rbind (subscript payload "book") (fun book => subscript book k) = Ok v.
Proof.
  apply (C9_book_is_parsed_object py_json_loads home_app (healthy dune_isbn_text)
           cover_jpg library "/tmp/tmpq1w2e3.jpg" (Some dune_isbn_text)
           dune_isbn_dict (VStr "Dune") (VStr "Science Fiction") 7).
  - exists "JFIF-bytes", "files/abc". split.
    + exists "cover.jpg". repeat split; vm_compute; reflexivity.
    + repeat split; vm_compute; reflexivity.
  - vm_compute. reflexivity.
  - reflexivity.
  - reflexivity.
  - repeat split; reflexivity.
  - repeat split; vm_compute; reflexivity.
Defined.

Lemma C10_failure_status_is_500_witness :
  exists detail,
    HTTPException 500 "[Errno 28] No space left on device"
    = HTTPException 500 detail.
Proof.
  apply (C10_failure_status_is_500 py_json_loads home_app disk_full cover_jpg library).
  vm_compute. reflexivity.
Defined.

(** The response of the concrete success request carries the additional
    field of the inference answer. *)
Example dune_isbn_returned :
  rbind (fst (upload_book py_json_loads home_app (healthy dune_isbn_text)
                cover_jpg library))
        (fun payload => embed (rbind (subscript payload "book")
                                     (fun book => subscript book "isbn")))
  = Ok (VStr "9780441013593").
Proof. vm_compute. reflexivity. Qed.

(** The rows of the concrete success request. *)
Example dune_rows :
  books (snd (upload_book py_json_loads home_app (healthy dune_text) cover_jpg library))
  = [mkBook 6 (VStr "Emma") (VStr "Novel");
     mkBook 7 (VStr "Dune") (VStr "Science Fiction")] /\
  sheets (snd (upload_book py_json_loads home_app (healthy dune_text) cover_jpg library))
    !! (SHEET_NAME, "Sheet1") = Some [emma_row; dune_row] /\
  fs (snd (upload_book py_json_loads home_app (healthy dune_text) cover_jpg library))
  = ∅.
Proof. repeat split; vm_compute; reflexivity. Qed.

(** * Further properties

    What the code shows beyond the statements above. *)

(** ** Start-up *)

Lemma truthy_some (o : option string) :
  truthy o = true -> exists v, o = Some v /\ v <> "".
Proof.
  destruct o as [v|]; [|discriminate]. simpl.
  destruct (String.eqb_spec v ""); [discriminate|]. intros _. exists v. auto.
Qed.

Lemma store_options_cases (P : string -> Prop) :
  P "DB_HOST" -> P "DB_NAME" -> P "DB_USER" -> P "DB_PASS" ->
  forall name, In name store_options -> P name.
Proof.
  intros H1 H2 H3 H4 name Hin. simpl in Hin.
  destruct Hin as [<-|[<-|[<-|[<-|[]]]]]; assumption.
Qed.

Lemma forallb_truthy_false (name : string) (env : gmap string string) :
  In name store_options ->
  truthy (getenv env name) = false ->
  forallb truthy [getenv env "DB_HOST"; getenv env "DB_NAME";
                  getenv env "DB_USER"; getenv env "DB_PASS"] = false.
Proof.
  intros Hin. revert name Hin.
  apply (store_options_cases (fun name => truthy (getenv env name) = false -> _));
    intros H; simpl; rewrite H; rewrite ?andb_false_r; reflexivity.
Qed.

(** A store option that is absent, or set to the empty string, stops
    start-up; when the credentials, the authorization and the spreadsheet
    are in order, the exception is the one of line 40. *)
Theorem startup_rejects_missing_or_empty (st : Startup)
    (dotenv environ : gmap string string) (name : string) :
  In name store_options ->
  getenv (load_dotenv dotenv environ) name = None \/
  getenv (load_dotenv dotenv environ) name = Some "" ->
  (exists e, module_init st dotenv environ = Raise e) /\
  (is_ok (from_json_keyfile_name st "credentials.json" scope) = true ->
   is_ok (authorize st) = true ->
   is_ok (client_open st SHEET_NAME) = true ->
   module_init st dotenv environ = Raise missing_options).
Proof.
  intros Hin Hval.
  assert (Hf : truthy (getenv (load_dotenv dotenv environ) name) = false).
  { destruct Hval as [-> | ->]; reflexivity. }
  pose proof (forallb_truthy_false name _ Hin Hf) as Hall.
  unfold module_init, rbind. rewrite Hall. simpl.
  destruct (from_json_keyfile_name st _ _) as [?|?|[]]; simpl.
  2:{ split; [eexists; reflexivity|discriminate]. }
  destruct (authorize st) as [?|?|[]]; simpl.
  2:{ split; [eexists; reflexivity|discriminate]. }
  destruct (client_open st _) as [?|?|[]]; simpl.
  2:{ split; [eexists; reflexivity|discriminate]. }
  split; [eexists; reflexivity|reflexivity].
Qed.

Lemma startup_rejects_missing_or_empty_witness :
  (exists e, module_init startup_ok ∅ (<["DB_USER" := ""]> home_environ) = Raise e) /\
  (is_ok (from_json_keyfile_name startup_ok "credentials.json" scope) = true ->
   is_ok (authorize startup_ok) = true ->
   is_ok (client_open startup_ok SHEET_NAME) = true ->
   module_init startup_ok ∅ (<["DB_USER" := ""]> home_environ) = Raise missing_options).
Proof.
  apply (startup_rejects_missing_or_empty startup_ok ∅
           (<["DB_USER" := ""]> home_environ) "DB_USER").
  - simpl. tauto.
  - right. vm_compute. reflexivity.
Defined.

(** In a process that has started, each of the four store globals holds a
    non-empty value: the one of the process environment, or, for a variable
    the process environment lacks, the one of the [.env] file. *)
Theorem startup_globals_from_environment (st : Startup)
    (dotenv environ : gmap string string) (a : App) (name : string) :
  module_init st dotenv environ = Ok a ->
  In name store_options ->
  exists v,
    store_global a name = Some v /\ v <> "" /\
    (environ !! name = Some v \/ (environ !! name = None /\ dotenv !! name = Some v)).
Proof.
  unfold module_init, rbind.
  destruct (from_json_keyfile_name st _ _) as [?|?|[]]; [|discriminate].
  destruct (authorize st) as [?|?|[]]; [|discriminate].
  destruct (client_open st _) as [?|?|[]]; [|discriminate].
  destruct (forallb truthy _) eqn:Hall; [|discriminate]. simpl.
  destruct (StaticFiles st _) as [?|?|[]]; [|discriminate].
  intros [= <-] Hin.
  simpl in Hall. rewrite !andb_true_iff in Hall.
  destruct Hall as (H1 & H2 & H3 & H4 & _).
  assert (Hsrc : forall n v, getenv (load_dotenv dotenv environ) n = Some v ->
            environ !! n = Some v \/ (environ !! n = None /\ dotenv !! n = Some v)).
  { intros n v. unfold getenv, load_dotenv. rewrite lookup_union_Some_raw. tauto. }
  revert name Hin.
  apply store_options_cases.
  - destruct (truthy_some _ H1) as (v & Hv & Hne). exists v. simpl. rewrite Hv. auto.
  - destruct (truthy_some _ H2) as (v & Hv & Hne). exists v. simpl. rewrite Hv. auto.
  - destruct (truthy_some _ H3) as (v & Hv & Hne). exists v. simpl. rewrite Hv. auto.
  - destruct (truthy_some _ H4) as (v & Hv & Hne). exists v. simpl. rewrite Hv. auto.
Qed.

Lemma startup_globals_from_environment_witness :
  exists v,
    store_global
      {| DB_HOST := Some "localhost"; DB_NAME := Some "library";
         DB_USER := Some "librarian"; DB_PASS := Some "from-dotenv";
         sheet := SHEET_NAME; os_environ := load_dotenv dotenv_file partial_environ |}
      "DB_PASS" = Some v /\ v <> "" /\
    (partial_environ !! "DB_PASS" = Some v \/
     (partial_environ !! "DB_PASS" = None /\ dotenv_file !! "DB_PASS" = Some v)).
Proof.
  apply (startup_globals_from_environment startup_ok dotenv_file partial_environ).
  - vm_compute. reflexivity.
  - simpl. tauto.
Defined.

(** ** The extension *)

Lemma ascii_eqb_eq (a b : ascii) : Ascii.eqb a b = true -> a = b.
Proof. apply Ascii.eqb_eq. Qed.

Lemma append_nothing (s : string) : s ++ "" = s.
Proof.
  induction s as [|a s IH]; [reflexivity|].
  change (String a (s ++ "") = String a s). rewrite IH. reflexivity.
Qed.

Lemma substring_whole (s : string) : String.substring 0 (String.length s) s = s.
Proof. induction s as [|a s IH]; simpl; [reflexivity|]. rewrite IH. reflexivity. Qed.

Lemma substring_to_end (p : string) (n : nat) :
  String.substring n (String.length p - n) p = string_drop n p.
Proof.
  revert n. induction p as [|a p IH]; intros [|n]; simpl; try reflexivity.
  - rewrite substring_whole. reflexivity.
  - apply IH.
Qed.

Lemma substring_then_drop (p : string) (n : nat) :
  String.substring 0 n p ++ string_drop n p = p.
Proof.
  revert n. induction p as [|a p IH]; intros [|n]; simpl; try reflexivity.
  change (String a (String.substring 0 n p ++ string_drop n p) = String a p).
  rewrite IH. reflexivity.
Qed.

Lemma string_drop_get (p : string) (k : nat) (c : ascii) :
  String.get k p = Some c -> string_drop k p = String c (string_drop (S k) p).
Proof.
  revert k. induction p as [|a p IH]; intros [|k]; simpl; try discriminate.
  - intros [= ->]. destruct p; reflexivity.
  - intros H. rewrite (IH _ H). reflexivity.
Qed.

Lemma occurs_string_drop (c : ascii) (s : string) (n : nat) :
  occurs c s = false -> occurs c (string_drop n s) = false.
Proof.
  revert n. induction s as [|a s IH]; intros [|n]; simpl; try reflexivity.
  - intros H. exact H.
  - intros H. apply orb_false_iff in H. apply IH. tauto.
Qed.

Lemma string_drop_add (s : string) (n m : nat) :
  string_drop (n + m) s = string_drop m (string_drop n s).
Proof.
  revert s. induction n as [|n IH]; intros s; simpl; [reflexivity|].
  destruct s; [destruct m; reflexivity|]. apply IH.
Qed.

(** What [rfind_from] returns: the start value when the character does not
    occur, else the index of an occurrence after which there is none. *)
Lemma rfind_from_spec (c : ascii) (s : string) (i found : Z) :
  (rfind_from c s i found = found /\ occurs c s = false) \/
  (exists k, rfind_from c s i found = (i + Z.of_nat k)%Z /\
             String.get k s = Some c /\
             occurs c (string_drop (S k) s) = false).
Proof.
  revert i found. induction s as [|a s IH]; intros i found; simpl.
  - left. auto.
  - destruct (IH (i + 1)%Z (if Ascii.eqb a c then i else found))
      as [[Hr Hocc] | (k & Hr & Hget & Hocc)].
    + destruct (Ascii.eqb a c) eqn:Hac.
      * right. exists 0%nat. rewrite Hr. simpl.
        apply ascii_eqb_eq in Hac. subst a.
        repeat split; [lia | destruct s; exact Hocc].
      * left. simpl. auto.
    + right. exists (S k). rewrite Hr. simpl. repeat split; [lia|assumption|].
      exact Hocc.
Qed.

(** [os.path.splitext]: root and extension make up the name, and the
    extension is empty or one period followed by no period and no path
    separator. *)
Lemma splitext_extension (p : string) :
  fst (splitext p) ++ snd (splitext p) = p /\
  is_extension (snd (splitext p)) = true.
Proof.
  unfold splitext.
  destruct ((rfind "." p >? rfind "/" p)%Z && _) eqn:Hc; simpl.
  2:{ split; [apply append_nothing|reflexivity]. }
  apply andb_true_iff in Hc. destruct Hc as [Hgt _].
  apply Z.gtb_lt in Hgt.
  rewrite substring_to_end. split; [apply substring_then_drop|].
  unfold rfind in *.
  destruct (rfind_from_spec "." p 0 (-1)) as [[Hd _] | (k & Hd & Hget & Hnodot)].
  { destruct (rfind_from_spec "/" p 0 (-1)) as [[Hs _] | (k2 & Hs & _)]; lia. }
  rewrite Hd in *. replace (Z.to_nat (0 + Z.of_nat k)) with k by lia.
  assert (Hnoslash : occurs "/" (string_drop (S k) p) = false).
  { destruct (rfind_from_spec "/" p 0 (-1)) as [[Hs Hnone] | (k2 & Hs & _ & Hno)].
    - apply occurs_string_drop. exact Hnone.
    - rewrite Hs in Hgt.
      replace (S k) with (S k2 + (k - k2))%nat by lia.
      rewrite string_drop_add. apply occurs_string_drop. exact Hno. }
  rewrite (string_drop_get _ _ _ Hget). unfold is_extension.
  rewrite Hnodot, Hnoslash. reflexivity.
Qed.

(** ** Tactics for the handler *)

Ltac unfold_all :=
  unfold upload_book, try_except_finally, upload_book_try, save_upload,
    with_block, open_temporary_file, write_upload, write_temporary_file, infer,
    insert_book, append_to_sheet, remove_temp_file, os_remove, read_temp_path,
    set_temp_path, add_pending, commit_pending, call, bind, lift, modify, ret,
    raise, enter, with_world, sheet1, sheet_row.

Ltac split_answer :=
  match goal with
  | |- context [match filename ?f with Some _ => _ | None => _ end] =>
      destruct (filename f) eqn:?; simpl
  | |- context [embed ?r] =>
      destruct r as [?|?|[]] eqn:?; simpl
  | |- context [match ?r with Ok _ => _ | Raise _ => _ | Escapes _ => _ end] =>
      destruct r eqn:?; simpl
  | |- context [(<[?k:=?v]> ?m) !! ?k] => rewrite (lookup_insert_eq m k v); simpl
  end.

Ltac every_path := unfold_all; simpl; repeat split_answer.

Ltac every_path_named :=
  match goal with
  | |- context [upload_book ?j ?a ?s ?f ?w] =>
      let E := fresh "E" in
      destruct (upload_book j a s f w) as [? ?] eqn:E;
      revert E; unfold_all; simpl; repeat split_answer;
      intros [= <- <-]; simpl
  end.

Ltac given_answer :=
  match goal with
  | H : ?lhs = Ok _ |- context [?lhs] => rewrite H; simpl
  | H : ?lhs = Raise _ |- context [?lhs] => rewrite H; simpl
  | H : ?lhs = Some _ |- context [?lhs] => rewrite H; simpl
  | H : ?lhs = None |- context [?lhs] => rewrite H; simpl
  | |- context [(<[?k:=?v]> ?m) !! ?k] => rewrite (lookup_insert_eq m k v); simpl
  end.

Ltac this_path := unfold_all; simpl; repeat given_answer.

Ltac added_trace :=
  unfold new_trace; simpl; repeat rewrite <- app_assoc; simpl;
  rewrite ?drop_app_length, ?drop_all.

Ltac open_hyps :=
  repeat match goal with
  | H : request_succeeds _ _ _ _ _ _ _ _ |- _ =>
      destruct H as (? & ? & ? & ? & ? & ? & ? & ?)
  | H : inference_returns _ _ _ _ _ |- _ =>
      destruct H as (? & ? & ? & ? & ? & ?)
  | H : temp_written _ _ _ _ |- _ =>
      destruct H as (? & ? & ? & ? & ? & ?)
  | H : store_insert_succeeds _ _ _ _ _ |- _ =>
      destruct H as (? & ? & ? & ? & ? & ?)
  | H : sheet_append_succeeds _ _ _ |- _ =>
      unfold sheet_row in H; destruct H as (? & ?)
  end.

Section HandlerInvariants.

Variable json_loads : option string -> Result value.
Variable app : App.
Variable svc : Services.

(** What holds at the end of every path through the handler. *)
Lemma path_facts (file : UploadFile) (w : World) :
  let w' := snd (upload_book json_loads app svc file w) in
  let tr := new_trace w w' in
  (attempted "os.remove" tr = returned "tmp.write" tr /\
   (returned "tmp.write" tr = true -> last (call_names tr) = Some "os.remove")) /\
  ((returned "conn.commit" tr = false /\ books w' = books w) \/
   (returned "conn.commit" tr = true /\
    exists new_id title genre,
      cur_execute svc query title genre = Ok new_id /\
      books w' = (books w ++ [mkBook new_id title genre])%list)) /\
  ((returned "worksheet.append_row" tr = false /\ sheets w' = sheets w) \/
   (returned "worksheet.append_row" tr = true /\
    exists row,
      sheets w' = <[sheet1 app :=
                     (default [] (sheets w !! sheet1 app) ++ [row])%list]> (sheets w))) /\
  (returned "psycopg2.connect" tr = true ->
   returned "cur.close" tr = false ->
   attempted "conn.close" tr = false) /\
  (attempted "psycopg2.connect" tr = true ->
   exists my_file text book_data,
     generate_content svc "gemini-2.5-flash" my_file prompt = Ok text /\
     json_loads text = Ok book_data).
Proof.
  intros w' tr. subst tr w'.
  every_path_named; added_trace;
  (split; [split; [reflexivity|];
           intros H; first [discriminate H | reflexivity]|]);
  (split; [first [ left; split; reflexivity
                 | right; split; [reflexivity|];
                   do 3 eexists; split; [eassumption|reflexivity] ]|]);
  (split; [first [ left; split; reflexivity
                 | right; split; [reflexivity|]; eexists; reflexivity ]|]);
  (split; [intros H1 H2; first [discriminate H1 | discriminate H2 | reflexivity]|]);
  (intros H; first [discriminate H | do 3 eexists; split; eassumption]).
Qed.


(** What every entry of the trace and every success tell. *)
Lemma trace_facts (file : UploadFile) (w : World) :
  let w' := snd (upload_book json_loads app svc file w) in
  let tr := new_trace w w' in
  (forall p,
     (forall fn, filename file = Some fn ->
                 NamedTemporaryFile svc (snd (splitext fn)) <> Ok p) ->
     fs w' !! p = fs w !! p) /\
  (forall payload,
     fst (upload_book json_loads app svc file w) = Ok payload ->
     exists book_data new_id title genre,
       payload = success_payload book_data /\
       subscript book_data "title" = Ok title /\
       subscript book_data "genre" = Ok genre /\
       cur_execute svc query title genre = Ok new_id /\
       books w' = (books w ++ [mkBook new_id title genre])%list /\
       sheets w' = <[sheet1 app :=
                      (default [] (sheets w !! sheet1 app)
                       ++ [sheet_row svc new_id title genre])%list]> (sheets w)) /\
  (forall k ok,
     In (EvGenaiClient k, ok) tr ->
     k = getenv (os_environ app) "GEMINI_API_KEY") /\
  (forall sfx ok,
     In (EvNamedTemporaryFile sfx, ok) tr ->
     exists fn, filename file = Some fn /\ sfx = snd (splitext fn)) /\
  (forall q title genre ok,
     In (EvExecute q title genre, ok) tr ->
     q = query /\
     exists text book_data,
       json_loads text = Ok book_data /\
       subscript book_data "title" = Ok title /\
       subscript book_data "genre" = Ok genre).
Proof.
  intros w' tr. subst tr w'.
  every_path_named; added_trace;
  (split; [intros p Hp; try reflexivity;
           match goal with
           | H : NamedTemporaryFile _ _ = Ok ?a |- _ =>
               assert (Hne : a <> p)
                 by (intros ->; exact (Hp _ eq_refl H));
               rewrite ?lookup_delete_ne, ?lookup_insert_ne by exact Hne;
               reflexivity
           end|]);
  (split; [intros payload Hok; try discriminate Hok;
           injection Hok as <-; do 4 eexists;
           repeat split; try eassumption; reflexivity|]);
  (split; [intros x ok Hin; simpl in Hin;
           repeat (destruct Hin as [Hin|Hin];
                   [try discriminate Hin; injection Hin as <- <-; reflexivity|]);
           contradiction|]);
  (split; [intros x ok Hin; simpl in Hin;
           repeat (destruct Hin as [Hin|Hin];
                   [try discriminate Hin; injection Hin as <- <-;
                    eexists; split; reflexivity|]);
           contradiction|]);
  (intros q title genre ok Hin; simpl in Hin;
   repeat (destruct Hin as [Hin|Hin];
           [first [ discriminate Hin
                  | injection Hin as <- <- <- <-;
                    split; [reflexivity|]; do 2 eexists; repeat split; eassumption ]|]);
   contradiction).
Qed.

End HandlerInvariants.

Lemma module_init_environ (st : Startup) (dotenv environ : gmap string string)
    (a : App) :
  module_init st dotenv environ = Ok a -> os_environ a = load_dotenv dotenv environ.
Proof.
  unfold module_init, rbind.
  destruct (from_json_keyfile_name st _ _) as [?|?|[]]; [|discriminate].
  destruct (authorize st) as [?|?|[]]; [|discriminate].
  destruct (client_open st _) as [?|?|[]]; [|discriminate].
  destruct (negb _); [discriminate|].
  destruct (StaticFiles st _) as [?|?|[]]; [|discriminate].
  intros [= <-]. reflexivity.
Qed.

Section HandlerFurther.

Variable json_loads : option string -> Result value.
Variable app : App.
Variable svc : Services.

(** The suffix of the temporary file is the extension of the client's file
    name: the name is its root followed by the suffix, and the suffix is
    empty or a period followed by no further period and no path separator. *)
Theorem temp_suffix_is_extension (file : UploadFile) (w : World)
    (sfx : string) (ok : bool) :
  In (EvNamedTemporaryFile sfx, ok)
     (new_trace w (snd (upload_book json_loads app svc file w))) ->
  is_extension sfx = true /\
  exists fn, filename file = Some fn /\ fst (splitext fn) ++ sfx = fn.
Proof.
  intros Hin.
  destruct (proj1 (proj2 (proj2 (proj2 (trace_facts json_loads app svc file w))))
              _ _ Hin) as (fn & Hfn & ->).
  destruct (splitext_extension fn) as [Hjoin Hext].
  split; [exact Hext|]. exists fn. auto.
Qed.

(** [os.remove] is called exactly in the requests in which [tmp.write]
    returned, the only ones in which [temp_path] is bound; it is then the
    last call of the request. *)
Theorem cleanup_exactly_when_written (file : UploadFile) (w : World) :
  attempted "os.remove" (new_trace w (snd (upload_book json_loads app svc file w)))
  = returned "tmp.write" (new_trace w (snd (upload_book json_loads app svc file w))) /\
  (returned "tmp.write" (new_trace w (snd (upload_book json_loads app svc file w)))
   = true ->
   last (call_names (new_trace w (snd (upload_book json_loads app svc file w))))
   = Some "os.remove").
Proof. exact (proj1 (path_facts json_loads app svc file w)). Qed.


(** The worksheets change only when [append_row] returned, and then only
    worksheet "Sheet1" of the handler's spreadsheet, by one row at its end. *)
Theorem sheets_change_only_by_append (file : UploadFile) (w : World) :
  (returned "worksheet.append_row"
     (new_trace w (snd (upload_book json_loads app svc file w))) = false /\
   sheets (snd (upload_book json_loads app svc file w)) = sheets w) \/
  (returned "worksheet.append_row"
     (new_trace w (snd (upload_book json_loads app svc file w))) = true /\
   exists row,
     sheets (snd (upload_book json_loads app svc file w))
     = <[sheet1 app := (default [] (sheets w !! sheet1 app) ++ [row])%list]> (sheets w)).
Proof. exact (proj1 (proj2 (proj2 (path_facts json_loads app svc file w)))). Qed.

(** When the connection was opened and the store block does not get past
    [cur.close()], [conn.close()] is never called: the connection is left
    open. *)
Theorem connection_left_open_on_failure (file : UploadFile) (w : World) :
  returned "psycopg2.connect"
    (new_trace w (snd (upload_book json_loads app svc file w))) = true ->
  returned "cur.close"
    (new_trace w (snd (upload_book json_loads app svc file w))) = false ->
  attempted "conn.close"
    (new_trace w (snd (upload_book json_loads app svc file w))) = false.
Proof. exact (proj1 (proj2 (proj2 (proj2 (path_facts json_loads app svc file w))))). Qed.

(** The store is contacted only in requests in which the inference service
    answered and [json.loads] accepted the answer. *)
Theorem store_contacted_only_after_parse (file : UploadFile) (w : World) :
  attempted "psycopg2.connect"
    (new_trace w (snd (upload_book json_loads app svc file w))) = true ->
  exists my_file text book_data,
    generate_content svc "gemini-2.5-flash" my_file prompt = Ok text /\
    json_loads text = Ok book_data.
Proof.
  exact (proj2 (proj2 (proj2 (proj2 (path_facts json_loads app svc file w))))).
Qed.

(** A file other than the temporary file of the request is never touched. *)
Theorem other_files_untouched (file : UploadFile) (w : World) (p : string) :
  (forall fn, filename file = Some fn ->
              NamedTemporaryFile svc (snd (splitext fn)) <> Ok p) ->
  fs (snd (upload_book json_loads app svc file w)) !! p = fs w !! p.
Proof. exact (proj1 (trace_facts json_loads app svc file w) p). Qed.


(** The API key given to [genai.Client] in a request is the value of
    GEMINI_API_KEY in the environment of the process, or else in the [.env]
    file; when neither has it, the client is built with [None]. *)
Theorem api_key_read_per_request (st : Startup) (dotenv environ : gmap string string)
    (file : UploadFile) (w : World) (k : option string) (ok : bool) :
  module_init st dotenv environ = Ok app ->
  In (EvGenaiClient k, ok)
     (new_trace w (snd (upload_book json_loads app svc file w))) ->
  k = match environ !! "GEMINI_API_KEY" with
      | Some v => Some v
      | None => dotenv !! "GEMINI_API_KEY"
      end.
Proof.
  intros Hinit Hin.
  rewrite (proj1 (proj2 (proj2 (trace_facts json_loads app svc file w))) _ _ Hin).
  rewrite (module_init_environ _ _ _ _ Hinit).
  unfold getenv, load_dotenv. rewrite lookup_union.
  destruct (environ !! "GEMINI_API_KEY"), (dotenv !! "GEMINI_API_KEY"); reflexivity.
Qed.

(** The SQL text sent to the store is always the same constant, whatever
    the inference service answered: [title] and [genre] of the decoded
    answer travel as the two parameters of the statement. *)
Theorem insert_is_parameterized (file : UploadFile) (w : World)
    (q : string) (title genre : value) (ok : bool) :
  In (EvExecute q title genre, ok)
     (new_trace w (snd (upload_book json_loads app svc file w))) ->
  q = "INSERT INTO books (title, genre) VALUES (%s, %s) RETURNING id;" /\
  exists text book_data,
    json_loads text = Ok book_data /\
    subscript book_data "title" = Ok title /\
    subscript book_data "genre" = Ok genre.
Proof.
  exact (proj2 (proj2 (proj2 (proj2 (trace_facts json_loads app svc file w))))
           q title genre ok).
Qed.

(** What becomes of the temporary file once line 65 has created it: at
    the end of the request it is gone when [tmp.write] returned; when it did
    not, the file is still there, holding what the failing write left in
    it, or nothing when [file.read()] did not return. *)
Theorem temp_file_fate (file : UploadFile) (w : World) (fn path : string) :
  filename file = Some fn ->
  NamedTemporaryFile svc (snd (splitext fn)) = Ok path ->
  fs (snd (upload_book json_loads app svc file w)) !! path
  = if returned "tmp.write" (new_trace w (snd (upload_book json_loads app svc file w)))
    then None
    else Some match read file with
              | Ok data => tmp_partial svc path data
              | _ => ""
              end.
Proof.
  intros Hfn Hntf.
  this_path. repeat split_answer; added_trace; simpl;
    first [apply lookup_delete_eq | apply lookup_insert_eq | reflexivity].
Qed.

(** An upload without a file name fails before anything is done: no call
    is made and the world is exactly as it was. *)
Theorem no_filename_changes_nothing (file : UploadFile) (w : World) :
  filename file = None ->
  upload_book json_loads app svc file w
  = (Raise (HTTPException 500
             "expected str, bytes or os.PathLike object, not NoneType"), w).
Proof.
  intros Hfn. this_path. destruct w; reflexivity.
Qed.

(** Once lines 65-67 have run through on a fresh temporary name, the file
    system is, at the end of the request, exactly what it was before,
    whatever the later stages do. *)
Theorem file_system_restored (file : UploadFile) (w : World) (path data : string) :
  temp_written svc file path data ->
  fs w !! path = None ->
  fs (snd (upload_book json_loads app svc file w)) = fs w.
Proof.
  intros H Hfresh. open_hyps.
  this_path. repeat split_answer;
    rewrite !delete_insert_eq; apply delete_id; exact Hfresh.
Qed.

(** A decoded object without [title], or with [title] and without [genre]:
    the lookup on line 98 raises [KeyError] and the detail is the key in
    single quotes.  By then the connection is open; no INSERT is sent,
    nothing is stored, and the connection is not closed. *)
Theorem missing_field_reported (file : UploadFile) (w : World) (path : string)
    (text : option string) (d : list (string * value)) (key : string) :
  inference_returns app svc file path text ->
  json_loads text = Ok (VDict d) ->
  (key = "title" /\ dict_get d "title" = None) \/
  (key = "genre" /\ is_Some (dict_get d "title") /\ dict_get d "genre" = None) ->
  psycopg2_connect svc (DB_HOST app) (DB_NAME app) (DB_USER app) (DB_PASS app) = Ok tt ->
  conn_cursor svc = Ok tt ->
  fst (upload_book json_loads app svc file w)
  = Raise (HTTPException 500 ("'" ++ key ++ "'")) /\
  books (snd (upload_book json_loads app svc file w)) = books w /\
  attempted "cur.execute"
    (new_trace w (snd (upload_book json_loads app svc file w))) = false /\
  attempted "conn.close"
    (new_trace w (snd (upload_book json_loads app svc file w))) = false.
Proof.
  intros Hinf Hjson Hkey Hconn Hcur. open_hyps.
  destruct Hkey as [[-> Ht] | (-> & [t Ht] & Hg)];
    (destruct (upload_book json_loads app svc file w) as [r w'] eqn:E;
     revert E; this_path; intros [= <- <-]; simpl;
     repeat split; added_trace; reflexivity).
Qed.

(** A decoded answer that is not an object (a list, a string, a number,
    [true], [false], [null]) never reaches the INSERT: the request fails and
    [books] and the worksheets are as they were. *)
Theorem non_object_never_inserted (file : UploadFile) (w : World) (path : string)
    (text : option string) (book_data : value) :
  inference_returns app svc file path text ->
  json_loads text = Ok book_data ->
  (forall d, book_data <> VDict d) ->
  is_ok (fst (upload_book json_loads app svc file w)) = false /\
  books (snd (upload_book json_loads app svc file w)) = books w /\
  sheets (snd (upload_book json_loads app svc file w)) = sheets w /\
  attempted "cur.execute"
    (new_trace w (snd (upload_book json_loads app svc file w))) = false.
Proof.
  intros Hinf Hjson Hnot. open_hyps.
  destruct (upload_book json_loads app svc file w) as [r w'] eqn:E.
  revert E. this_path.
  destruct book_data; try (exfalso; eapply Hnot; reflexivity);
    simpl; repeat split_answer; intros [= <- <-]; simpl;
    repeat split; added_trace; reflexivity.
Qed.

(** When the commit has returned and closing the cursor or the connection
    raises, the request fails although the row is stored, and the sheet is
    never reached. *)
Theorem close_failure_after_commit (file : UploadFile) (w : World) (path : string)
    (text : option string) (book_data title genre : value) (new_id : Z) (e : Exn) :
  inference_returns app svc file path text ->
  json_loads text = Ok book_data ->
  subscript book_data "title" = Ok title ->
  subscript book_data "genre" = Ok genre ->
  psycopg2_connect svc (DB_HOST app) (DB_NAME app) (DB_USER app) (DB_PASS app) = Ok tt ->
  conn_cursor svc = Ok tt ->
  cur_execute svc query title genre = Ok new_id ->
  conn_commit svc = Ok tt ->
  cur_close svc = Raise e \/ (cur_close svc = Ok tt /\ conn_close svc = Raise e) ->
  fst (upload_book json_loads app svc file w)
  = Raise (HTTPException 500 (str_exn e)) /\
  books (snd (upload_book json_loads app svc file w))
  = (books w ++ [mkBook new_id title genre])%list /\
  sheets (snd (upload_book json_loads app svc file w)) = sheets w /\
  attempted "sheet.worksheet"
    (new_trace w (snd (upload_book json_loads app svc file w))) = false.
Proof.
  intros Hinf Hjson Ht Hg Hconn Hcur Hexec Hcommit Hclose. open_hyps.
  destruct Hclose as [Hcc | [Hcc Hconc]];
    (destruct (upload_book json_loads app svc file w) as [r w'] eqn:E;
     revert E; this_path; intros [= <- <-]; simpl;
     repeat split; added_trace; reflexivity).
Qed.


End HandlerFurther.


(** ** The further properties on concrete requests *)



Lemma temp_suffix_is_extension_witness :
  is_extension ".jpg" = true /\
  exists fn, filename cover_jpg = Some fn /\ fst (splitext fn) ++ ".jpg" = fn.
Proof.
  apply (temp_suffix_is_extension py_json_loads home_app (healthy dune_text)
           cover_jpg library ".jpg" true).
  vm_compute. left. reflexivity.
Defined.

Lemma insert_is_parameterized_witness :
  query = "INSERT INTO books (title, genre) VALUES (%s, %s) RETURNING id;" /\
  exists text book_data,
    py_json_loads text = Ok book_data /\
    subscript book_data "title" = Ok (VStr "Dune") /\
    subscript book_data "genre" = Ok (VStr "Science Fiction").
Proof.
  apply (insert_is_parameterized py_json_loads home_app (healthy dune_text)
           cover_jpg library query (VStr "Dune") (VStr "Science Fiction") true).
  vm_compute. do 9 right. left. reflexivity.
Defined.

Lemma temp_file_fate_witness :
  fs (snd (upload_book py_json_loads home_app half_written cover_jpg library))
    !! "/tmp/tmpq1w2e3.jpg"
  = if returned "tmp.write"
         (new_trace library
            (snd (upload_book py_json_loads home_app half_written cover_jpg library)))
    then None
    else Some match read cover_jpg with
              | Ok data => tmp_partial half_written "/tmp/tmpq1w2e3.jpg" data
              | _ => ""
              end.
Proof.
  apply (temp_file_fate py_json_loads home_app half_written cover_jpg library
           "cover.jpg" "/tmp/tmpq1w2e3.jpg"); vm_compute; reflexivity.
Defined.

Lemma cleanup_exactly_when_written_witness :
  last (call_names
          (new_trace library
             (snd (upload_book py_json_loads home_app sheet_down cover_jpg library))))
  = Some "os.remove".
Proof.
  apply (proj2 (cleanup_exactly_when_written py_json_loads home_app sheet_down
                  cover_jpg library)).
  vm_compute. reflexivity.
Defined.

(** The file a failing write leaves behind holds the bytes that reached
    it. *)
Example half_written_file :
  fs (snd (upload_book py_json_loads home_app half_written cover_jpg library))
    !! "/tmp/tmpq1w2e3.jpg" = Some "JFIF".
Proof. vm_compute. reflexivity. Qed.

Lemma connection_left_open_on_failure_witness :
  attempted "conn.close"
    (new_trace library
       (snd (upload_book py_json_loads home_app store_down cover_jpg library))) = false.
Proof.
  apply (connection_left_open_on_failure py_json_loads home_app store_down
           cover_jpg library); vm_compute; reflexivity.
Defined.

Lemma store_contacted_only_after_parse_witness :
  exists my_file text book_data,
    generate_content (healthy dune_text) "gemini-2.5-flash" my_file prompt = Ok text /\
    py_json_loads text = Ok book_data.
Proof.
  apply (store_contacted_only_after_parse py_json_loads home_app (healthy dune_text)
           cover_jpg library).
  vm_compute. reflexivity.
Defined.

Lemma other_files_untouched_witness :
  fs (snd (upload_book py_json_loads home_app (healthy dune_text) cover_jpg
             (set_fs {[ "static/index.html" := "<html>" ]} library)))
    !! "static/index.html"
  = fs (set_fs {[ "static/index.html" := "<html>" ]} library) !! "static/index.html".
Proof.
  apply (other_files_untouched py_json_loads home_app (healthy dune_text) cover_jpg
           (set_fs {[ "static/index.html" := "<html>" ]} library) "static/index.html").
  intros fn [= <-]. vm_compute. discriminate.
Defined.


Lemma api_key_read_per_request_witness :
  Some "k-dotenv"
  = match partial_environ !! "GEMINI_API_KEY" with
    | Some v => Some v
    | None => dotenv_file !! "GEMINI_API_KEY"
    end.
Proof.
  apply (api_key_read_per_request py_json_loads dotenv_app (healthy dune_text)
           startup_ok dotenv_file partial_environ cover_jpg library
           (Some "k-dotenv") true).
  - vm_compute. reflexivity.
  - vm_compute. do 4 right. left. reflexivity.
Defined.

Lemma no_filename_changes_nothing_witness :
  upload_book py_json_loads home_app (healthy dune_text) no_name_upload library
  = (Raise (HTTPException 500
             "expected str, bytes or os.PathLike object, not NoneType"), library).
Proof.
  apply (no_filename_changes_nothing py_json_loads home_app (healthy dune_text)
           no_name_upload library).
  reflexivity.
Defined.

Lemma file_system_restored_witness :
  fs (snd (upload_book py_json_loads home_app sheet_down cover_jpg library))
  = fs library.
Proof.
  apply (file_system_restored py_json_loads home_app sheet_down cover_jpg library
           "/tmp/tmpq1w2e3.jpg" "JFIF-bytes").
  - exists "cover.jpg". repeat split; vm_compute; reflexivity.
  - vm_compute. reflexivity.
Defined.

Lemma missing_field_reported_witness :
  fst (upload_book py_json_loads home_app (healthy title_only_text) cover_jpg library)
  = Raise (HTTPException 500 ("'" ++ "genre" ++ "'")) /\
  books (snd (upload_book py_json_loads home_app (healthy title_only_text)
                cover_jpg library)) = books library /\
  attempted "cur.execute"
    (new_trace library
       (snd (upload_book py_json_loads home_app (healthy title_only_text)
               cover_jpg library))) = false /\
  attempted "conn.close"
    (new_trace library
       (snd (upload_book py_json_loads home_app (healthy title_only_text)
               cover_jpg library))) = false.
Proof.
  apply (missing_field_reported py_json_loads home_app (healthy title_only_text)
           cover_jpg library "/tmp/tmpq1w2e3.jpg" (Some title_only_text)
           [("title", VStr "Dune")] "genre").
  - exists "JFIF-bytes", "files/abc". split.
    + exists "cover.jpg". repeat split; vm_compute; reflexivity.
    + repeat split; vm_compute; reflexivity.
  - vm_compute. reflexivity.
  - right. split; [reflexivity|]. split; [eexists; reflexivity|reflexivity].
  - reflexivity.
  - reflexivity.
Defined.

Lemma non_object_never_inserted_witness :
  is_ok (fst (upload_book py_json_loads home_app (healthy list_text) cover_jpg library))
  = false /\
  books (snd (upload_book py_json_loads home_app (healthy list_text) cover_jpg library))
  = books library /\
  sheets (snd (upload_book py_json_loads home_app (healthy list_text) cover_jpg library))
  = sheets library /\
  attempted "cur.execute"
    (new_trace library
       (snd (upload_book py_json_loads home_app (healthy list_text) cover_jpg library)))
  = false.
Proof.
  apply (non_object_never_inserted py_json_loads home_app (healthy list_text)
           cover_jpg library "/tmp/tmpq1w2e3.jpg" (Some list_text)
           (VList [VStr "Dune"; VStr "Science Fiction"])).
  - exists "JFIF-bytes", "files/abc". split.
    + exists "cover.jpg". repeat split; vm_compute; reflexivity.
    + repeat split; vm_compute; reflexivity.
  - vm_compute. reflexivity.
  - intros d. discriminate.
Defined.

Lemma close_failure_after_commit_witness :
  fst (upload_book py_json_loads home_app close_fails cover_jpg library)
  = Raise (HTTPException 500
             (str_exn (PyExc "InterfaceError" "cursor already closed"))) /\
  books (snd (upload_book py_json_loads home_app close_fails cover_jpg library))
  = (books library ++ [mkBook 7 (VStr "Dune") (VStr "Science Fiction")])%list /\
  sheets (snd (upload_book py_json_loads home_app close_fails cover_jpg library))
  = sheets library /\
  attempted "sheet.worksheet"
    (new_trace library
       (snd (upload_book py_json_loads home_app close_fails cover_jpg library))) = false.
Proof.
  apply (close_failure_after_commit py_json_loads home_app close_fails cover_jpg
           library "/tmp/tmpq1w2e3.jpg" (Some dune_text) (VDict dune_dict)
           (VStr "Dune") (VStr "Science Fiction") 7
           (PyExc "InterfaceError" "cursor already closed")).
  - exists "JFIF-bytes", "files/abc". split.
    + exists "cover.jpg". repeat split; vm_compute; reflexivity.
    + repeat split; vm_compute; reflexivity.
  - vm_compute. reflexivity.
  - reflexivity.
  - reflexivity.
  - reflexivity.
  - reflexivity.
  - reflexivity.
  - reflexivity.
  - left. reflexivity.
Defined.


(** The world after the same cover has been uploaded twice. *)
Example twice_uploaded :
  books (snd (upload_book py_json_loads home_app healthy_again cover_jpg
                (snd (upload_book py_json_loads home_app (healthy dune_text)
                        cover_jpg library))))
  = [mkBook 6 (VStr "Emma") (VStr "Novel");
     mkBook 7 (VStr "Dune") (VStr "Science Fiction");
     mkBook 8 (VStr "Dune") (VStr "Science Fiction")] /\
  sheets (snd (upload_book py_json_loads home_app healthy_again cover_jpg
                 (snd (upload_book py_json_loads home_app (healthy dune_text)
                         cover_jpg library))))
    !! (SHEET_NAME, "Sheet1")
  = Some [emma_row; dune_row;
          [VInt 8; VStr "Dune"; VStr "Science Fiction"; VStr "03/09/2025 12:06:00"]].
Proof. repeat split; vm_compute; reflexivity. Qed.
